(** * hidden_prototype: the Execution Gateway ([forge_and_run])

    A shallow embedding of [src/hidden_prototype/main.py] and the
    properties of its single tool, [forge_and_run].

    Conventions of the embedding.
    - A Python [str] is a list of Unicode code points ([list N]); slicing,
      [isalnum] and [repr] all work per code point, as in CPython.
    - A [pathlib.Path] is the list of its components, innermost first, so
      that [p / "name"] is [name :: p] and [p.parent] is the tail.  All paths
      of the program are absolute ([PROTO_ROOT] is resolved at import time).
    - The outside world (file system, clock, environment, search path and the
      child process) is an explicit [World] value threaded through a small
      state-and-exception monad. *)

From Stdlib Require Import ZArith NArith QArith List Ascii String Lia.
From Stdlib Require Import DecimalString DecimalPos DecimalZ.
From stdpp Require Import base option list gmap.

Set Default Proof Using "Type".
Local Open Scope N_scope.

(* ===================================================================== *)
(** ** Python strings *)
(* ===================================================================== *)

(** A Python string: its code points, in order. *)
Abbreviation str := (list N).
(** A path: its components, innermost first. *)
Abbreviation Path := (list (list N)).

(** An ASCII literal as a Python string. *)
Definition lit (s : string) : str :=
  List.map N_of_ascii (list_ascii_of_string s).

Definition NL : N := 10.          (* "\n" *)
Definition SPACE : N := 32.       (* " "  *)
Definition UNDERSCORE : N := 95.  (* "_"  *)
Definition SLASH : N := 47.       (* "/"  *)
Definition BACKSLASH : N := 92.
Definition DOT : N := 46.         (* "."  *)
Definition SQUOTE : N := 39.      (* '    *)
Definition DQUOTE : N := 34.

(** [sep.join(parts)]. *)
Fixpoint str_join (sep : str) (parts : list str) : str :=
  match parts with
  | [] => []
  | [p] => p
  | p :: rest => p ++ sep ++ str_join sep rest
  end.

(** [s.startswith(pre)]. *)
Fixpoint startswith (pre s : str) : bool :=
  match pre, s with
  | [], _ => true
  | _ :: _, [] => false
  | a :: pre', b :: s' => (a =? b) && startswith pre' s'
  end.

(** The scanning loop of [s.replace(old, new)] for a non-empty [old]:
    occurrences are found left to right and do not overlap; [skip] counts the
    characters of the occurrence just replaced that are still to be passed. *)
Fixpoint replace_from (old new : str) (skip : nat) (s : str) : str :=
  match s with
  | [] => []
  | c :: rest =>
      match skip with
      | S k => replace_from old new k rest
      | O =>
          if startswith old s
          then new ++ replace_from old new (length old - 1) rest
          else c :: replace_from old new 0 rest
      end
  end.

(** [s.replace(old, new)]; an empty [old] matches between all characters. *)
Definition str_replace (old new s : str) : str :=
  match old with
  | [] => new ++ List.flat_map (fun c => c :: new) s
  | _ :: _ => replace_from old new 0 s
  end.

(** [sub in s]: [sub] occurs in [s] as a contiguous run. *)
Definition contains (sub s : str) : Prop :=
  exists pre post, s = pre ++ sub ++ post.

(** The same test, computed. *)
Fixpoint containsb (sub s : str) : bool :=
  startswith sub s ||
  match s with
  | [] => false
  | _ :: s' => containsb sub s'
  end.

(** *** Character classes *)

(** [str.isalnum] on an ASCII character: digits and letters. *)
Definition ascii_isalnum (c : N) : bool :=
  ((48 <=? c) && (c <=? 57)) || ((65 <=? c) && (c <=? 90))
  || ((97 <=? c) && (c <=? 122)).

(** What the program takes from its platform: the home directory found at
    import time and, for the characters outside ASCII, the two properties of
    the Unicode database that [str.isalnum] and [repr] consult. *)
Class Platform := {
  HOME_DIR : Path;
  unicode_isalnum : N -> bool;
  unicode_isprintable : N -> bool
}.

Section Strings.
Context `{Platform}.

(** [c.isalnum()] for a one-character string. *)
Definition isalnum (c : N) : bool :=
  if c <? 128 then ascii_isalnum c else unicode_isalnum c.

(** The filter of line 48: [c.isalnum() or c in (" ", "_")]. *)
Definition keeps (c : N) : bool :=
  isalnum c || ((c =? SPACE) || (c =? UNDERSCORE)).

(** Line 48:
    ["".join(c for c in purpose if ...).replace(" ", "_")[:30]]. *)
Definition safe_purpose (purpose : str) : str :=
  take 30
    (str_replace [SPACE] [UNDERSCORE]
       (str_join [] (List.map (fun c => [c]) (List.filter keeps purpose)))).

(** The sanitized purpose as the specification words it: keep only the
    characters that are alphanumeric, space or underscore; turn every space
    into an underscore; keep at most the first 30 characters. *)
Definition space_to_underscore (c : N) : N :=
  if c =? SPACE then UNDERSCORE else c.

Definition sanitized_purpose_spec (purpose : str) : str :=
  firstn 30 (List.map space_to_underscore
               (List.filter (fun c => isalnum c || (c =? SPACE) || (c =? UNDERSCORE))
                  purpose)).

End Strings.

(* ===================================================================== *)
(** ** Formatting: [str(int)], [repr(str)], [str(list)], [strftime] *)
(* ===================================================================== *)

Fixpoint uint_codes (d : Decimal.uint) : str :=
  match d with
  | Decimal.Nil => []
  | Decimal.D0 d => 48 :: uint_codes d
  | Decimal.D1 d => 49 :: uint_codes d
  | Decimal.D2 d => 50 :: uint_codes d
  | Decimal.D3 d => 51 :: uint_codes d
  | Decimal.D4 d => 52 :: uint_codes d
  | Decimal.D5 d => 53 :: uint_codes d
  | Decimal.D6 d => 54 :: uint_codes d
  | Decimal.D7 d => 55 :: uint_codes d
  | Decimal.D8 d => 56 :: uint_codes d
  | Decimal.D9 d => 57 :: uint_codes d
  end.

(** [str(n)] for a natural number: its decimal digits. *)
Definition nat_str (n : N) : str := uint_codes (N.to_uint n).

(** [str(z)] for a Python [int]. *)
Definition int_str (z : Z) : str :=
  match z with
  | Z0 => nat_str 0
  | Zpos p => nat_str (Npos p)
  | Zneg p => 45 :: nat_str (Npos p)
  end.

(** A number in decimal, padded with zeros on the left to [width] digits
    ([%02d], [%04d]). *)
Definition zero_pad (width : nat) (n : N) : str :=
  let d := nat_str n in
  List.repeat 48 (width - length d) ++ d.

Definition hex_digit (n : N) : N :=
  if n <? 10 then 48 + n else 87 + n.

(** [width] lower-case hexadecimal digits of [n], most significant first. *)
Fixpoint hex_fixed (width : nat) (n : N) : str :=
  match width with
  | O => []
  | S k => hex_fixed k (n / 16) ++ [hex_digit (n mod 16)]
  end.

Section Repr.
Context `{Platform}.

(** One character of [repr(s)], given the chosen quote character. *)
Definition repr_char (quote ch : N) : str :=
  if (ch =? quote) || (ch =? BACKSLASH) then [BACKSLASH; ch]
  else if ch =? 9 then lit "\t"
  else if ch =? 10 then lit "\n"
  else if ch =? 13 then lit "\r"
  else if (ch <? 32) || (ch =? 127) then lit "\x" ++ hex_fixed 2 ch
  else if ch <? 127 then [ch]
  else if unicode_isprintable ch then [ch]
  else if ch <=? 255 then lit "\x" ++ hex_fixed 2 ch
  else if ch <=? 65535 then lit "\u" ++ hex_fixed 4 ch
  else lit "\U" ++ hex_fixed 8 ch.

(** The quote [repr] picks: double quotes only when the string has a single
    quote and no double quote. *)
Definition repr_quote (s : str) : N :=
  if existsb (N.eqb SQUOTE) s && negb (existsb (N.eqb DQUOTE) s)
  then DQUOTE else SQUOTE.

(** [repr(s)] for a string. *)
Definition str_repr (s : str) : str :=
  let q := repr_quote s in
  q :: List.flat_map (repr_char q) s ++ [q].

(** [str(l)] for a list of strings, as an f-string renders it. *)
Definition list_str (l : list str) : str :=
  lit "[" ++ str_join (lit ", ") (List.map str_repr l) ++ lit "]".

End Repr.

(** What [datetime.now()] returns. *)
Record datetime := {
  year : N; month : N; day : N;
  hour : N; minute : N; second : N;
  microsecond : N
}.

(** [t.strftime("%Y%m%d_%H%M%S")]: four digits for the year (the years
    [datetime.now()] can return have four), two for each other field. *)
Definition strftime (t : datetime) : str :=
  zero_pad 4 (year t) ++ zero_pad 2 (month t) ++ zero_pad 2 (day t)
  ++ [UNDERSCORE]
  ++ zero_pad 2 (hour t) ++ zero_pad 2 (minute t) ++ zero_pad 2 (second t).

(* ===================================================================== *)
(** ** Paths *)
(* ===================================================================== *)

(** [s.split(sep)] for a one-character separator. *)
Fixpoint split_on (sep : N) (s : str) : list str :=
  match s with
  | [] => [[]]
  | c :: rest =>
      if c =? sep then [] :: split_on sep rest
      else match split_on sep rest with
           | [] => [[c]]
           | h :: t => (c :: h) :: t
           end
  end.

(** The components pathlib reads from a string: empty components and
    ["."] are dropped, [".."] is kept. *)
Definition parse_parts (s : str) : list str :=
  List.filter (fun part => negb (bool_decide (part = []) || bool_decide (part = [DOT])))
    (split_on SLASH s).

(** [p / s]: an absolute [s] replaces [p], otherwise its components are
    appended. *)
Definition joinpath (p : Path) (s : str) : Path :=
  if startswith [SLASH] s then rev (parse_parts s)
  else rev (parse_parts s) ++ p.

(** [p.name]. *)
Definition path_name (p : Path) : str :=
  match p with
  | [] => []
  | name :: _ => name
  end.

(** [str(p)] for an absolute path. *)
Definition path_str (p : Path) : str :=
  SLASH :: str_join [SLASH] (rev p).

(* ===================================================================== *)
(** ** The outside world *)
(* ===================================================================== *)

(** An entry of the file system: a directory or a regular text file.  There
    are no symbolic links in the model, so [resolve()] and [absolute()] leave
    an absolute path as it is; text is written as on POSIX (no newline
    translation). *)
Inductive Node :=
  | Dir
  | File (content : str).

(** The exceptions the program can meet. *)
Inductive exn :=
  | FileExistsError
  | FileNotFoundError
  | NotADirectoryError
  | IsADirectoryError
  | UnicodeEncodeError
  | TimeoutExpired
  | OtherException (msg : str).

(** [except FileNotFoundError]. *)
Definition is_FileNotFoundError (e : exn) : bool :=
  match e with FileNotFoundError => true | _ => false end.

(** [except OSError]: the file-system errors. *)
Definition is_OSError (e : exn) : bool :=
  match e with
  | FileExistsError | FileNotFoundError | NotADirectoryError
  | IsADirectoryError => true
  | _ => false
  end.

(** [except subprocess.TimeoutExpired]. *)
Definition is_TimeoutExpired (e : exn) : bool :=
  match e with TimeoutExpired => true | _ => false end.

(** [str(e)] where the program formats an exception: the message of the
    exception [subprocess.run] raised.  Only [subprocess.run] stands inside
    the [try] of line 67, so the texts given here for the file-system errors
    (Python's also name the path) never reach a report. *)
Definition exn_str (e : exn) : str :=
  match e with
  | OtherException msg => msg
  | FileExistsError => lit "[Errno 17] File exists"
  | FileNotFoundError => lit "[Errno 2] No such file or directory"
  | NotADirectoryError => lit "[Errno 20] Not a directory"
  | IsADirectoryError => lit "[Errno 21] Is a directory"
  | UnicodeEncodeError => lit "'utf-8' codec can't encode characters"
  | TimeoutExpired => lit "Command timed out"
  end.

(** [subprocess.CompletedProcess], with captured text output. *)
Record CompletedProcess := {
  returncode : Z;
  stdout : str;
  stderr : str
}.

(** The arguments of one [subprocess.run] call. *)
Record PopenArgs := {
  popen_args : list str;
  popen_env : gmap str str;
  popen_timeout : Q;
  popen_cwd : str
}.

(** What reading the two output pipes of a child as text gives
    ([capture_output=True, text=True]): the two texts, or the message of the
    [UnicodeDecodeError] when the bytes are not valid text. *)
Inductive Captured :=
  | Decoded (out err : str)
  | Undecodable (msg : str).

(** A child process that started.  Times are in seconds from the launch:
    when the child itself exits, and when its output pipes are closed by
    every process that holds them (a process the child left behind can keep
    them open).  With them, the exit code, what the pipes gave, and the file
    system as it is after a given time. *)
Record Child := {
  exits_after : Q;
  pipes_closed_after : Q;
  exit_code : Z;
  output : Captured;
  fs_after : Q -> gmap Path Node
}.

(** When [subprocess.run] stops waiting, if it is given the time: it reads
    the pipes to their end and waits for the child, so this is the later of
    the two times. *)
Definition run_time (ch : Child) : Q :=
  if Qle_bool (exits_after ch) (pipes_closed_after ch)
  then pipes_closed_after ch else exits_after ch.

(** The answer to a launch: [subprocess.run] raises before any child runs
    (the runner cannot be started, say), or the child starts. *)
Inductive Spawned :=
  | SpawnError (msg : str)
  | Started (ch : Child).

Record World := {
  fs : gmap Path Node;              (* the file system *)
  environ : gmap str str;           (* os.environ *)
  clock : datetime;                 (* what datetime.now() reads *)
  uv_on_path : option str;          (* what shutil.which("uv") finds *)
  launch : PopenArgs -> gmap Path Node -> Spawned;  (* the child's behaviour *)
  spawned : list PopenArgs          (* the launches made so far *)
}.

Definition with_fs (w : World) (f : gmap Path Node) : World :=
  {| fs := f; environ := environ w; clock := clock w;
     uv_on_path := uv_on_path w; launch := launch w; spawned := spawned w |}.

Definition with_spawned (w : World) (l : list PopenArgs) : World :=
  {| fs := fs w; environ := environ w; clock := clock w;
     uv_on_path := uv_on_path w; launch := launch w; spawned := l |}.

(** *** Computations: state and exceptions *)

Inductive Result (A : Type) :=
  | Returns (a : A)
  | Raises (e : exn).
Arguments Returns {A} a.
Arguments Raises {A} e.

Definition M (A : Type) : Type := World -> Result A * World.

Definition ret {A} (a : A) : M A := fun w => (Returns a, w).

Definition raise {A} (e : exn) : M A := fun w => (Raises e, w).

Definition bind {A B} (m : M A) (k : A -> M B) : M B :=
  fun w =>
    match m w with
    | (Returns a, w') => k a w'
    | (Raises e, w') => (Raises e, w')
    end.

(** [try: m  except ...: handler e]; the handler sees the world as the failed
    body left it. *)
Definition try_except {A} (m : M A) (handler : exn -> M A) : M A :=
  fun w =>
    match m w with
    | (Returns a, w') => (Returns a, w')
    | (Raises e, w') => handler e w'
    end.

Declare Scope py_scope.
Delimit Scope py_scope with py.
Notation "x <- m ;; k" := (bind m (fun x => k))
  (at level 100, m at next level, right associativity) : py_scope.
Notation "m ;;; k" := (bind m (fun _ => k))
  (at level 100, right associativity) : py_scope.
Local Open Scope py_scope.

(** *** File system *)

(** What is at a path; the root directory always exists. *)
Definition entry (f : gmap Path Node) (p : Path) : option Node :=
  match p with
  | [] => Some Dir
  | _ :: _ => f !! p
  end.

(** [p.is_dir()]. *)
Definition is_dir (p : Path) : M bool :=
  fun w => (Returns (match entry (fs w) p with Some Dir => true | _ => false end), w).

(** Whether a regular file sits at a path or above it. *)
Fixpoint file_above (f : gmap Path Node) (d : Path) : bool :=
  match d with
  | [] => false
  | _ :: parent =>
      match f !! d with
      | Some (File _) => true
      | _ => file_above f parent
      end
  end.

(** The error for a path whose parent is not there: the parent is missing,
    or a regular file stands higher up where a directory is needed. *)
Definition missing_parent (f : gmap Path Node) (p : Path) : exn :=
  if file_above f (tail p) then NotADirectoryError else FileNotFoundError.

(** [os.mkdir(p)]. *)
Definition os_mkdir (p : Path) : M unit :=
  fun w =>
    match entry (fs w) p with
    | Some _ => (Raises FileExistsError, w)
    | None =>
        match entry (fs w) (tail p) with
        | Some Dir => (Returns tt, with_fs w (<[p := Dir]> (fs w)))
        | Some (File _) => (Raises NotADirectoryError, w)
        | None => (Raises (missing_parent (fs w) p), w)
        end
    end.

(** [Path.mkdir(parents=False, exist_ok=exist_ok)]. *)
Definition mkdir_single (exist_ok : bool) (p : Path) : M unit :=
  try_except (os_mkdir p) (fun e =>
    if is_FileNotFoundError e then raise e
    else if is_OSError e then
      d <- is_dir p ;;
      if negb exist_ok || negb d then raise e else ret tt
    else raise e).

(** [Path.mkdir(parents=True, exist_ok=exist_ok)]: on a missing parent, make
    the parent (with its parents) and try once more. *)
Fixpoint mkdir_parents (exist_ok : bool) (p : Path) : M unit :=
  try_except (os_mkdir p) (fun e =>
    if is_FileNotFoundError e then
      match p with
      | [] => raise e
      | _ :: parent =>
          mkdir_parents true parent ;;;
          mkdir_single exist_ok p
      end
    else if is_OSError e then
      d <- is_dir p ;;
      if negb exist_ok || negb d then raise e else ret tt
    else raise e).

(** A string UTF-8 can encode: no surrogate code points. *)
Definition utf8_encodable (s : str) : bool :=
  forallb (fun c => (c <? 55296) || (57343 <? c)) s.

(** [with open(p, "w", encoding="utf-8") as f: f.write(text)]: the file is
    created or truncated when it is opened, then the text is encoded. *)
Definition write_text (p : Path) (text : str) : M unit :=
  fun w =>
    match entry (fs w) p with
    | Some Dir => (Raises IsADirectoryError, w)
    | _ =>
        match entry (fs w) (tail p) with
        | Some Dir =>
            if utf8_encodable text
            then (Returns tt, with_fs w (<[p := File text]> (fs w)))
            else (Raises UnicodeEncodeError, with_fs w (<[p := File []]> (fs w)))
        | Some (File _) => (Raises NotADirectoryError, w)
        | None => (Raises (missing_parent (fs w) p), w)
        end
    end.

(** [list(d.glob("*"))]: the entries directly inside [d], hidden ones
    included, whatever their kind.  (Entries exist under [d] only while [d]
    is a directory.) *)
Definition children (f : gmap Path Node) (d : Path) : list Path :=
  List.filter (fun p => bool_decide (p <> [] /\ tail p = d))
    (List.map fst (map_to_list f)).

Definition glob_star (d : Path) : M (list Path) :=
  fun w => (Returns (children (fs w) d), w).

(** *** Clock, environment, search path, child process *)

Definition datetime_now : M datetime := fun w => (Returns (clock w), w).

(** [os.environ.copy()]. *)
Definition environ_copy : M (gmap str str) := fun w => (Returns (environ w), w).

(** [shutil.which("uv")]. *)
Definition which_uv : M (option str) := fun w => (Returns (uv_on_path w), w).

(** [subprocess.run(args, capture_output=True, text=True, env=env,
    timeout=timeout, cwd=cwd)]: the launch is recorded.  When the pipes are
    not closed or the child has not exited after [timeout] seconds, the child
    is killed and [TimeoutExpired] is raised.  Otherwise what the pipes gave
    is decoded: the result is returned, or the decode error is raised; either
    way the disk is as the child left it. *)
Definition subprocess_run (args : list str) (env : gmap str str)
    (timeout : Q) (cwd : str) : M CompletedProcess :=
  fun w =>
    let call := {| popen_args := args; popen_env := env;
                   popen_timeout := timeout; popen_cwd := cwd |} in
    let w1 := with_spawned w (spawned w ++ [call]) in
    match launch w call (fs w) with
    | SpawnError msg => (Raises (OtherException msg), w1)
    | Started ch =>
        if Qle_bool (run_time ch) timeout
        then
          let w2 := with_fs w1 (fs_after ch (run_time ch)) in
          match output ch with
          | Decoded out err =>
              (Returns {| returncode := exit_code ch;
                          stdout := out; stderr := err |}, w2)
          | Undecodable msg => (Raises (OtherException msg), w2)
          end
        else (Raises TimeoutExpired, with_fs w1 (fs_after ch timeout))
    end.

(* ===================================================================== *)
(** ** The program *)
(* ===================================================================== *)

Definition ROCKET : N := 128640.      (* U+1F680 *)
Definition BAR_CHART : N := 128202.   (* U+1F4CA *)
Definition FOLDER : N := 128193.      (* U+1F4C1 *)
Definition CROSS_MARK : N := 10060.   (* U+274C *)

Definition NOT_FOUND_ERROR : str :=
  CROSS_MARK :: lit " Error: 'uv' executable not found in PATH.".

Definition TIMEOUT_ERROR : str :=
  CROSS_MARK :: lit " Error: Execution timed out (180s).".

Definition system_error (e : exn) : str :=
  CROSS_MARK :: lit " System Error: " ++ exn_str e.

Definition PROTOTYPE_OUTPUT_DIR : str := lit "PROTOTYPE_OUTPUT_DIR".

(** Truth value of [uv_path]: [None] and the empty string are false. *)
Definition truthy (o : option str) : bool :=
  match o with
  | Some (_ :: _) => true
  | _ => false
  end.

Section Gateway.
Context `{Platform}.

(** Line 12: [(HOME_DIR / ".hidden_prototype").resolve()]. *)
Definition PROTO_ROOT : Path := joinpath HOME_DIR (lit ".hidden_prototype").

(** Line 13, run once at import: [PROTO_ROOT.mkdir(exist_ok=True)]. *)
Definition module_init : M unit := mkdir_single true PROTO_ROOT.

(** Line 50: the workspace directory of a call made at [now]. *)
Definition proto_dir_of (now : datetime) (purpose : str) : Path :=
  joinpath PROTO_ROOT (strftime now ++ [UNDERSCORE] ++ safe_purpose purpose).

(** Line 78. *)
Definition directory_line (proto_dir : Path) : str :=
  ROCKET :: lit " Prototype Directory Created: " ++ path_str proto_dir.

(** Line 79. *)
Definition status_line (result : CompletedProcess) : str :=
  BAR_CHART :: lit " Status: " ++
  (if (returncode result =? 0)%Z then lit "Success"
   else lit "Failed (Exit Code: " ++ int_str (returncode result) ++ lit ")").

(** Line 81: [result.stdout or "(No output)"]. *)
Definition stdout_text (result : CompletedProcess) : str :=
  match stdout result with
  | [] => lit "(No output)"
  | _ :: _ => stdout result
  end.

(** Line 85. *)
Definition stderr_block (result : CompletedProcess) : str :=
  NL :: lit "[Standard Error]" ++ [NL] ++ stderr result.

(** Line 89. *)
Definition artifacts_block (artifacts : list Path) : str :=
  NL :: FOLDER :: lit " Generated Artifacts in outputs/: "
  ++ list_str (List.map path_name artifacts).

(** Lines 47 to 58: name the workspace, create it with its output directory
    and write the script.  Returns [proto_dir], [output_dir] and
    [script_path]. *)
Definition materialize (code purpose : str) : M (Path * Path * Path) :=
  now <- datetime_now ;;
  let timestamp := strftime now in
  let safe := safe_purpose purpose in
  let proto_dir := joinpath PROTO_ROOT (timestamp ++ [UNDERSCORE] ++ safe) in
  let output_dir := joinpath proto_dir (lit "outputs") in
  mkdir_parents true proto_dir ;;;
  mkdir_parents true output_dir ;;;
  let script_path := joinpath proto_dir (lit "script.py") in
  write_text script_path code ;;;
  ret (proto_dir, output_dir, script_path).

(** Lines 60 to 96: find the runner, run the script, build the report. *)
Definition execute (proto_dir output_dir script_path : Path) : M str :=
  uv_path <- which_uv ;;
  if negb (truthy uv_path) then ret NOT_FOUND_ERROR
  else
    env <- environ_copy ;;
    let env := <[PROTOTYPE_OUTPUT_DIR := path_str output_dir]> env in
    try_except
      (result <- subprocess_run
                   [default [] uv_path; lit "run"; path_str script_path]
                   env 180 (path_str proto_dir) ;;
       let report :=
         [ directory_line proto_dir;
           status_line result;
           NL :: lit "[Standard Output]";
           stdout_text result ] in
       let report :=
         match stderr result with
         | [] => report
         | _ :: _ => report ++ [stderr_block result]
         end in
       artifacts <- glob_star output_dir ;;
       let report :=
         match artifacts with
         | [] => report
         | _ :: _ => report ++ [artifacts_block artifacts]
         end in
       ret (str_join [NL] report))
      (fun e =>
         if is_TimeoutExpired e then ret TIMEOUT_ERROR
         else ret (system_error e)).

(** [forge_and_run(code, purpose)], lines 47 to 96. *)
Definition forge_and_run (code purpose : str) : M str :=
  paths <- materialize code purpose ;;
  let '(proto_dir, output_dir, script_path) := paths in
  execute proto_dir output_dir script_path.

End Gateway.

(* ===================================================================== *)
(** ** Relations and sample data used by the statements *)
(* ===================================================================== *)

Section Relations.
Context `{Platform}.




(** The launch [forge_and_run] makes when it finds the runner at [uv]. *)
Definition gateway_call (w : World) (purpose uv : str) : PopenArgs :=
  let proto_dir := proto_dir_of (clock w) purpose in
  {| popen_args := [uv; lit "run"; path_str (lit "script.py" :: proto_dir)];
     popen_env := <[PROTOTYPE_OUTPUT_DIR := path_str (lit "outputs" :: proto_dir)]>
                    (environ w);
     popen_timeout := 180;
     popen_cwd := path_str proto_dir |}.

(** The text of a report, section by section: the four fixed sections, then
    the standard-error section and the artifact section, each empty or
    introduced by the newline that joins it to what precedes. *)
Definition stderr_section (result : CompletedProcess) : str :=
  match stderr result with
  | [] => []
  | _ :: _ => NL :: stderr_block result
  end.

Definition artifacts_section (artifacts : list Path) : str :=
  match artifacts with
  | [] => []
  | _ :: _ => NL :: artifacts_block artifacts
  end.

Definition report_head (proto_dir : Path) (result : CompletedProcess) : str :=
  directory_line proto_dir ++ [NL] ++ status_line result ++ [NL]
  ++ (NL :: lit "[Standard Output]") ++ [NL] ++ stdout_text result.


(** Lines 47 to 58 return: the workspace is created and the script is
    written, so that the call goes on to look for the runner. *)
Definition workspace_creatable (w : World) (code purpose : str) : bool :=
  match fst (materialize code purpose w) with
  | Returns _ => true
  | Raises _ => false
  end.

(** The file system as lines 47 to 58 leave it. *)
Definition created_fs (w : World) (code purpose : str) : gmap Path Node :=
  fs (snd (materialize code purpose w)).

(** What happens to the child of this call, launched on that file system. *)
Definition child_at (w : World) (code purpose uv : str) : Spawned :=
  launch w (gateway_call w purpose uv) (created_fs w code purpose).


End Relations.

(** The result [subprocess.run] returns for a child whose output decodes. *)
Definition result_of (ch : Child) (out err : str) : CompletedProcess :=
  {| returncode := exit_code ch; stdout := out; stderr := err |}.


(** Two readings of the clock that show the same local date and time down
    to the second, which is all a timestamp holds.  Two calls within one
    second read the clock so; so do calls an hour apart when the local time
    is set back. *)
Definition same_second (t1 t2 : datetime) : Prop :=
  year t1 = year t2 /\ month t1 = month t2 /\ day t1 = day t2 /\
  hour t1 = hour t2 /\ minute t1 = minute t2 /\ second t1 = second t2.

(** A platform for the examples: a home directory, and Unicode tables that
    are exact on Latin-1 and answer "not alphanumeric" and "printable"
    beyond it. *)
Definition latin1_isalnum (c : N) : bool :=
  (c =? 170) || (c =? 178) || (c =? 179) || (c =? 181) || (c =? 185)
  || (c =? 186) || ((188 <=? c) && (c <=? 190))
  || ((192 <=? c) && (c <=? 214)) || ((216 <=? c) && (c <=? 246))
  || ((248 <=? c) && (c <=? 255)).

Definition latin1_isprintable (c : N) : bool :=
  negb ((c <=? 160) || (c =? 173)).

Definition sample_platform : Platform :=
  {| HOME_DIR := [lit "dev"; lit "home"];
     unicode_isalnum := latin1_isalnum;
     unicode_isprintable := latin1_isprintable |}.

Definition sample_clock : datetime :=
  {| year := 2025; month := 3; day := 9;
     hour := 14; minute := 5; second := 7; microsecond := 120034 |}.

(** A child that exits with [rc] after [secs] seconds, its pipes closed
    with it, having written one file named [name] into the directory [d]
    once it has run for a second. *)
Definition sample_process (secs : Q) (rc : Z) (out err : str) (name : str)
    (d : Path) (f : gmap Path Node) : Child :=
  {| exits_after := secs;
     pipes_closed_after := secs;
     exit_code := rc;
     output := Decoded out err;
     fs_after := fun t =>
       if Qle_bool 1 t then <[name :: d := File (lit "x,y")]> f else f |}.

(** The operating system of the examples: the child writes where
    [PROTOTYPE_OUTPUT_DIR] tells it to. *)
Definition sample_child (secs : Q) (rc : Z) (out err : str) (name : str)
    (call : PopenArgs) (f : gmap Path Node) : Spawned :=
  match popen_env call !! PROTOTYPE_OUTPUT_DIR with
  | None => SpawnError (lit "no output directory")
  | Some d => Started (sample_process secs rc out err name (rev (parse_parts d)) f)
  end.

Definition sample_world (secs : Q) (rc : Z) (out err name : str)
    (uv : option str) : World :=
  {| fs := {[ [lit "home"] := Dir;
              [lit "dev"; lit "home"] := Dir;
              [lit ".hidden_prototype"; lit "dev"; lit "home"] := Dir ]};
     environ := {[ lit "PATH" := lit "/usr/bin" ]};
     clock := sample_clock;
     uv_on_path := uv;
     launch := sample_child secs rc out err name;
     spawned := [] |}.

Definition sample_code : str := lit "print(1)".
Definition sample_purpose : str := lit "plot sales/Q3".
Definition sample_uv : str := lit "/usr/bin/uv".

(** A sample world whose launches start the given child. *)
Definition world_with_child (ch : gmap Path Node -> Child) : World :=
  let w := sample_world 2 0 [] [] [] (Some sample_uv) in
  {| fs := fs w; environ := environ w; clock := clock w;
     uv_on_path := uv_on_path w;
     launch := fun _ f => Started (ch f);
     spawned := spawned w |}.

(** A child that exits with code 0 after two seconds and has written bytes
    that are not valid text. *)
Definition undecodable_child (f : gmap Path Node) : Child :=
  {| exits_after := 2; pipes_closed_after := 2; exit_code := 0;
     output := Undecodable
                 (lit "'utf-8' codec can't decode byte 0xff in position 2: invalid start byte");
     fs_after := fun _ => <[[lit "marker"; lit "tmp"] := File (lit "ran")]> f |}.

(** A child that exits with code 0 after one second and leaves behind a
    process that keeps the output pipes open for 200 seconds. *)
Definition pipe_holder_child (f : gmap Path Node) : Child :=
  {| exits_after := 1; pipes_closed_after := 200; exit_code := 0;
     output := Decoded (lit "ok") [];
     fs_after := fun _ => f |}.

(** The same world for a gateway that was itself started with
    [PROTOTYPE_OUTPUT_DIR] in its environment. *)
Definition nested_world (secs : Q) (rc : Z) (out err name : str)
    (uv : option str) : World :=
  let w := sample_world secs rc out err name uv in
  {| fs := fs w;
     environ := <[PROTOTYPE_OUTPUT_DIR := lit "/tmp/elsewhere"]> (environ w);
     clock := clock w; uv_on_path := uv_on_path w;
     launch := launch w; spawned := spawned w |}.


(** The child's environment is the inherited one plus one new variable:
    every inherited variable is passed on with its value, and one variable
    that was not inherited is added. *)
Definition env_extended_by_one (inherited child : gmap str str) : Prop :=
  (forall k v, inherited !! k = Some v -> child !! k = Some v) /\
  exists k v, inherited !! k = None /\ child = <[k := v]> inherited.

(** *** Data for the further properties *)

(** The number a run of decimal digits writes. *)
Definition digits_value (s : str) : N :=
  fold_left (fun acc c => 10 * acc + (c - 48)) s 0.

(** Reading a timestamp back: the fields at their fixed places in
    [YYYYMMDD_HHMMSS]. *)
Definition read_timestamp (s : str) : datetime :=
  {| year := digits_value (take 4 s);
     month := digits_value (take 2 (drop 4 s));
     day := digits_value (take 2 (drop 6 s));
     hour := digits_value (take 2 (drop 9 s));
     minute := digits_value (take 2 (drop 11 s));
     second := digits_value (take 2 (drop 13 s));
     microsecond := 0 |}.

(** A date and time with a four-digit year, as [datetime.now()] returns. *)
Definition valid_datetime (t : datetime) : bool :=
  (1000 <=? year t) && (year t <=? 9999)
  && (1 <=? month t) && (month t <=? 12)
  && (1 <=? day t) && (day t <=? 31)
  && (hour t <=? 23) && (minute t <=? 59) && (second t <=? 59)
  && (microsecond t <=? 999999).


(** A sample world whose runner cannot be started. *)
Definition broken_runner_world (msg : str) : World :=
  let w := sample_world 2 0 [] [] [] (Some sample_uv) in
  {| fs := fs w; environ := environ w; clock := clock w;
     uv_on_path := uv_on_path w;
     launch := fun _ _ => SpawnError msg;
     spawned := spawned w |}.

(** From one file system to a later one, nothing changed but directories
    that were added where nothing was. *)
Definition only_adds_dirs (f f' : gmap Path Node) : Prop :=
  forall p, f' !! p = f !! p \/ (f !! p = None /\ f' !! p = Some Dir).

(** No regular file sits at a path or above it. *)
Definition clear_above (f : gmap Path Node) (q : Path) : Prop :=
  forall p c, p `suffix_of` q -> entry f p <> Some (File c).


(** A file system that holds directories only. *)
Definition only_dirs (f : gmap Path Node) : bool :=
  forallb (fun e => match snd e with Dir => true | File _ => false end)
    (map_to_list f).

(* ===================================================================== *)
(** ** Strings: lemmas *)
(* ===================================================================== *)

Lemma str_join_singletons (l : str) :
  str_join [] (List.map (fun c => [c]) l) = l.
Proof.
  induction l as [|c l IH]; [reflexivity|].
  destruct l as [|d l]; [reflexivity|].
  change (c :: str_join [] (List.map (fun c => [c]) (d :: l)) = c :: d :: l).
  now rewrite IH.
Qed.

Lemma replace_from_char (a b : N) (s : str) :
  replace_from [a] [b] 0 s = List.map (fun c => if c =? a then b else c) s.
Proof.
  induction s as [|c s IH]; [reflexivity|].
  cbn [replace_from startswith length Nat.sub List.map].
  rewrite (N.eqb_sym a c).
  destruct (c =? a); cbn; now rewrite IH.
Qed.

Lemma contains_intro (pre sub post : str) : contains sub (pre ++ sub ++ post).
Proof. now exists pre, post. Qed.

Lemma contains_app_r (sub pre s : str) : contains sub s -> contains sub (pre ++ s).
Proof.
  intros (a & b & ->). exists (pre ++ a), b. now rewrite <- app_assoc.
Qed.

Lemma contains_app_l (sub s post : str) : contains sub s -> contains sub (s ++ post).
Proof.
  intros (a & b & ->). exists a, (b ++ post). now rewrite <- !app_assoc.
Qed.


Lemma startswith_app (sub post : str) : startswith sub (sub ++ post) = true.
Proof.
  induction sub as [|c sub IH]; [reflexivity|].
  cbn. now rewrite N.eqb_refl, IH.
Qed.

(** The computed test finds every occurrence. *)
Lemma containsb_complete (sub s : str) : contains sub s -> containsb sub s = true.
Proof.
  intros (pre & post & ->).
  induction pre as [|c pre IH].
  - cbn [app]. destruct (sub ++ post) eqn:E; cbn.
    + destruct sub; [reflexivity | discriminate].
    + rewrite <- E, startswith_app. reflexivity.
  - cbn [app containsb]. rewrite IH. apply orb_true_r.
Qed.

Lemma not_contains (sub s : str) : containsb sub s = false -> ~ contains sub s.
Proof.
  intros Hb Hc. apply containsb_complete in Hc. congruence.
Qed.

Section StringFacts.
Context `{Platform}.

(** Line 48 without the library calls: filter, map, take. *)
Lemma safe_purpose_unfold (purpose : str) :
  safe_purpose purpose =
  take 30 (List.map space_to_underscore (List.filter keeps purpose)).
Proof.
  unfold safe_purpose, str_replace.
  now rewrite str_join_singletons, replace_from_char.
Qed.

Lemma keeps_not_slash_dot (c : N) :
  keeps c = true -> c <> SLASH /\ c <> DOT /\ c <> BACKSLASH.
Proof.
  intros Hk. repeat split; intros ->; vm_compute in Hk; discriminate.
Qed.

Lemma space_to_underscore_safe (c : N) :
  keeps c = true ->
  isalnum (space_to_underscore c) = true \/ space_to_underscore c = UNDERSCORE.
Proof.
  unfold keeps, space_to_underscore. intros Hk.
  destruct (c =? SPACE) eqn:Es; [now right|].
  cbn in Hk.
  apply orb_true_iff in Hk as [Hk|Hk]; [now left|].
  right. now apply N.eqb_eq.
Qed.

(** Every character of the sanitized purpose is alphanumeric or an
    underscore. *)
Lemma safe_purpose_chars (purpose : str) :
  Forall (fun c => isalnum c = true \/ c = UNDERSCORE) (safe_purpose purpose).
Proof.
  rewrite safe_purpose_unfold.
  apply Forall_take.
  induction purpose as [|c p IH]; cbn; [constructor|].
  destruct (keeps c) eqn:Hk; [|exact IH].
  cbn. constructor; [now apply space_to_underscore_safe | exact IH].
Qed.

Lemma safe_purpose_length (purpose : str) :
  (length (safe_purpose purpose) <= 30)%nat.
Proof. rewrite safe_purpose_unfold, length_take. lia. Qed.



End StringFacts.


(* ===================================================================== *)
(** ** Decimal text *)
(* ===================================================================== *)

Lemma lit_String (c : ascii) (s : string) : lit (String c s) = N_of_ascii c :: lit s.
Proof. reflexivity. Qed.

Lemma uint_codes_string (d : Decimal.uint) :
  uint_codes d = lit (DecimalString.NilEmpty.string_of_uint d).
Proof.
  induction d; cbn [uint_codes DecimalString.NilEmpty.string_of_uint];
    rewrite ?lit_String, ?IHd; reflexivity.
Qed.

(** [int_str] writes an integer as the standard library's decimal printer
    does: digits without leading zeros, a minus sign for negatives. *)
Lemma int_str_decimal (z : Z) :
  int_str z = lit (DecimalString.NilZero.string_of_int (Z.to_int z)).
Proof.
  destruct z as [|p|p]; [reflexivity| |];
    unfold int_str, nat_str; cbn [N.to_uint Z.to_int DecimalString.NilZero.string_of_int];
    unfold DecimalString.NilZero.string_of_uint;
    pose proof (DecimalPos.Unsigned.to_uint_nonnil p) as Hn;
    rewrite ?lit_String, uint_codes_string;
    destruct (Pos.to_uint p); (done || reflexivity).
Qed.

Lemma lit_inj (s t : string) : lit s = lit t -> s = t.
Proof.
  revert t. induction s as [|a s IH]; intros [|b t]; try discriminate.
  - reflexivity.
  - rewrite !lit_String. intros [= Hab Hst].
    f_equal; [|now apply IH].
    rewrite <- (ascii_N_embedding a), <- (ascii_N_embedding b). now rewrite Hab.
Qed.

Lemma to_int_nonnil (z : Z) :
  Z.to_int z <> Decimal.Pos Decimal.Nil /\ Z.to_int z <> Decimal.Neg Decimal.Nil.
Proof.
  destruct z as [|p|p]; cbn; split; try discriminate;
    intros [= E]; now apply (DecimalPos.Unsigned.to_uint_nonnil p).
Qed.

(** Different exit codes have different texts. *)
Lemma int_str_inj (z1 z2 : Z) : int_str z1 = int_str z2 -> z1 = z2.
Proof.
  rewrite !int_str_decimal. intros E. apply lit_inj in E.
  apply DecimalZ.to_int_inj.
  apply (f_equal DecimalString.NilZero.int_of_string) in E.
  rewrite !DecimalString.NilZero.isi in E by apply to_int_nonnil.
  now injection E.
Qed.

(* ===================================================================== *)
(** ** Paths and workspace names: lemmas *)
(* ===================================================================== *)

Lemma split_on_no_sep (sep : N) (s : str) :
  Forall (fun c => c <> sep) s -> split_on sep s = [s].
Proof.
  induction 1 as [|c s Hc _ IH]; [reflexivity|].
  cbn. apply N.eqb_neq in Hc. now rewrite Hc, IH.
Qed.

(** A non-empty string without slash or dot is a single path component. *)
Lemma parse_parts_single (s : str) :
  Forall (fun c => c <> SLASH /\ c <> DOT) s -> s <> [] ->
  parse_parts s = [s].
Proof.
  intros Hs Hne. unfold parse_parts.
  rewrite split_on_no_sep by (eapply Forall_impl; [exact Hs|]; now intros c [? _]).
  cbn. rewrite bool_decide_eq_false_2 by exact Hne.
  rewrite bool_decide_eq_false_2; [reflexivity|].
  intros ->. apply Forall_inv in Hs. now destruct Hs.
Qed.

Lemma joinpath_child (p : Path) (s : str) :
  Forall (fun c => c <> SLASH /\ c <> DOT) s -> s <> [] ->
  joinpath p s = s :: p.
Proof.
  intros Hs Hne. unfold joinpath. rewrite parse_parts_single by assumption.
  destruct s as [|c s]; [done|].
  apply Forall_inv in Hs. destruct Hs as [Hc _].
  cbn [startswith]. apply not_eq_sym, N.eqb_neq in Hc. rewrite Hc. reflexivity.
Qed.

Lemma joinpath_outputs (p : Path) : joinpath p (lit "outputs") = lit "outputs" :: p.
Proof. reflexivity. Qed.

Lemma joinpath_script (p : Path) : joinpath p (lit "script.py") = lit "script.py" :: p.
Proof. reflexivity. Qed.

Lemma uint_codes_digits (d : Decimal.uint) :
  Forall (fun c => 48 <= c <= 57) (uint_codes d).
Proof. induction d; cbn; constructor; (lia || assumption). Qed.

Lemma zero_pad_digits (width : nat) (n : N) :
  Forall (fun c => 48 <= c <= 57) (zero_pad width n).
Proof.
  unfold zero_pad, nat_str. apply Forall_app. split.
  - apply List.Forall_forall. intros c Hc. apply repeat_spec in Hc. subst c. lia.
  - apply uint_codes_digits.
Qed.

(** A timestamp is made of digits and one underscore. *)
Lemma strftime_chars (t : datetime) :
  Forall (fun c => 48 <= c <= 57 \/ c = UNDERSCORE) (strftime t).
Proof.
  unfold strftime. rewrite !Forall_app.
  repeat split;
    try (eapply Forall_impl; [apply zero_pad_digits|]; intros c Hc; now left).
  constructor; [now right | constructor].
Qed.

(** The two timestamps of one second are the same text. *)
Lemma strftime_same_second (t1 t2 : datetime) :
  same_second t1 t2 -> strftime t1 = strftime t2.
Proof.
  intros (Hy & Hm & Hd & Hh & Hmi & Hs). unfold strftime. congruence.
Qed.

Section Names.
Context `{Platform}.

Lemma PROTO_ROOT_eq : PROTO_ROOT = lit ".hidden_prototype" :: HOME_DIR.
Proof. reflexivity. Qed.

(** The directory name of a call: no slash, no dot, no backslash. *)
Lemma workspace_name_chars (t : datetime) (purpose : str) :
  Forall (fun c => c <> SLASH /\ c <> DOT /\ c <> BACKSLASH)
    (strftime t ++ [UNDERSCORE] ++ safe_purpose purpose).
Proof.
  rewrite !Forall_app. repeat split.
  - eapply Forall_impl; [apply strftime_chars|].
    intros c [Hc| ->]; [unfold SLASH, DOT, BACKSLASH; lia | done].
  - constructor; [done | constructor].
  - eapply Forall_impl; [apply safe_purpose_chars|].
    intros c [Hc| ->]; [|done].
    repeat split; intros ->; vm_compute in Hc; discriminate.
Qed.

Lemma proto_dir_of_child (t : datetime) (purpose : str) :
  proto_dir_of t purpose =
  (strftime t ++ [UNDERSCORE] ++ safe_purpose purpose) :: PROTO_ROOT.
Proof.
  unfold proto_dir_of. apply joinpath_child.
  - eapply Forall_impl; [apply workspace_name_chars|]. now intros c (? & ? & _).
  - intros E. apply (f_equal (@length N)) in E.
    rewrite !length_app in E. cbn in E. lia.
Qed.

End Names.

(* ===================================================================== *)
(** ** File system and workspace creation: lemmas *)
(* ===================================================================== *)

Lemma with_fs_id (w : World) : with_fs w (fs w) = w.
Proof. now destruct w. Qed.

Lemma bind_returns {A B} (m : M A) (k : A -> M B) (w w' : World) (a : A) :
  m w = (Returns a, w') -> bind m k w = k a w'.
Proof. unfold bind. now intros ->. Qed.

Lemma cons_ne_self {A} (x : A) (l : list A) : x :: l <> l.
Proof.
  intros E. apply (f_equal (@length A)) in E. cbn in E. lia.
Qed.




Lemma outputs_ne_script : lit "outputs" <> lit "script.py".
Proof. discriminate. Qed.

Section Workspace.
Context `{Platform}.


End Workspace.

(* ===================================================================== *)
(** ** Running and reporting: lemmas *)
(* ===================================================================== *)

Lemma str_join_snoc (sep : str) (l : list str) (x : str) :
  l <> [] -> str_join sep (l ++ [x]) = str_join sep l ++ sep ++ x.
Proof.
  induction l as [|a l IH]; [done|]. intros _.
  destruct l as [|b l]; [reflexivity|].
  change (a ++ sep ++ str_join sep ((b :: l) ++ [x]) =
          (a ++ sep ++ str_join sep (b :: l)) ++ sep ++ x).
  rewrite IH by discriminate. now rewrite <- !app_assoc.
Qed.

Section Execution.
Context `{Platform}.

(** The text of the report list of lines 77 to 91, once joined. *)
Lemma report_text (proto_dir : Path) (result : CompletedProcess)
    (artifacts : list Path) :
  let report :=
    [ directory_line proto_dir; status_line result;
      NL :: lit "[Standard Output]"; stdout_text result ] in
  let report :=
    match stderr result with
    | [] => report
    | _ :: _ => report ++ [stderr_block result]
    end in
  let report :=
    match artifacts with
    | [] => report
    | _ :: _ => report ++ [artifacts_block artifacts]
    end in
  str_join [NL] report =
  report_head proto_dir result ++ stderr_section result
  ++ artifacts_section artifacts.
Proof.
  cbv zeta. unfold stderr_section, artifacts_section, report_head.
  destruct (stderr result) as [|e err], artifacts as [|a arts];
    rewrite ?str_join_snoc by discriminate;
    rewrite ?str_join_snoc by discriminate;
    cbn [str_join]; rewrite ?app_nil_r, <- ?app_assoc; reflexivity.
Qed.

Lemma execute_not_found (p o s : Path) (w : World) :
  truthy (uv_on_path w) = false ->
  execute p o s w = (Returns NOT_FOUND_ERROR, w).
Proof.
  intros Hu. unfold execute, bind, which_uv. now rewrite Hu.
Qed.

(** Lines 64 to 96 when the runner is found. *)
Lemma execute_found (p o s : Path) (w : World) (uv : str) :
  uv_on_path w = Some uv -> uv <> [] ->
  let call := {| popen_args := [uv; lit "run"; path_str s];
                 popen_env := <[PROTOTYPE_OUTPUT_DIR := path_str o]> (environ w);
                 popen_timeout := 180;
                 popen_cwd := path_str p |} in
  let w1 := with_spawned w (spawned w ++ [call]) in
  execute p o s w =
  match launch w call (fs w) with
  | SpawnError msg => (Returns (system_error (OtherException msg)), w1)
  | Started ch =>
      if Qle_bool (run_time ch) 180
      then
        match output ch with
        | Decoded out err =>
            (Returns (report_head p (result_of ch out err)
                      ++ stderr_section (result_of ch out err)
                      ++ artifacts_section (children (fs_after ch (run_time ch)) o)),
             with_fs w1 (fs_after ch (run_time ch)))
        | Undecodable msg =>
            (Returns (system_error (OtherException msg)),
             with_fs w1 (fs_after ch (run_time ch)))
        end
      else (Returns TIMEOUT_ERROR, with_fs w1 (fs_after ch 180))
  end.
Proof.
  intros Hu Hne call w1.
  unfold execute, bind, which_uv, environ_copy, try_except, subprocess_run.
  rewrite Hu. destruct uv as [|c uv]; [done|].
  cbn [truthy negb from_option id]. fold call. fold w1.
  destruct (launch w call (fs w)) as [msg|ch]; [reflexivity|].
  destruct (Qle_bool (run_time ch) 180); [|reflexivity].
  destruct (output ch) as [out err|msg]; [|reflexivity].
  unfold glob_star, ret. cbn [fs with_fs]. fold (result_of ch out err).
  now rewrite <- report_text.
Qed.

End Execution.

(* ===================================================================== *)
(** ** Listings: lemmas *)
(* ===================================================================== *)





Lemma contains_head (c : N) (sub s : str) : contains (c :: sub) s -> In c s.
Proof.
  intros (pre & post & ->). apply in_or_app. right. now left.
Qed.

Section Listing.
Context `{Platform}.


(** The [repr] of a name is the name between two quotes. *)
Lemma repr_quotes (s : str) :
  exists q body, (q = SQUOTE \/ q = DQUOTE) /\ str_repr s = q :: body ++ [q].
Proof.
  unfold str_repr. eexists _, _. split; [|reflexivity].
  unfold repr_quote. destruct (_ && _); [now right | now left].
Qed.





End Listing.

(* ===================================================================== *)
(** ** What workspace creation touches: lemmas *)
(* ===================================================================== *)

Lemma suffix_cons_cases {A} (p : list A) (x : A) (l : list A) :
  p `suffix_of` x :: l -> p = x :: l \/ p `suffix_of` l.
Proof.
  intros [k E]. destruct k as [|y k]; cbn in E.
  - now left.
  - right. injection E as _ ->. now exists k.
Qed.

Lemma os_mkdir_frame (q : Path) (w : World) (p : Path) :
  p <> q -> fs (snd (os_mkdir q w)) !! p = fs w !! p.
Proof.
  intros Hp. unfold os_mkdir.
  destruct (entry (fs w) q); [reflexivity|].
  destruct (entry (fs w) (tail q)) as [[|]|]; try reflexivity.
  cbn. now rewrite lookup_insert_ne by congruence.
Qed.

Lemma mkdir_single_frame (e : bool) (q : Path) (w : World) (p : Path) :
  p <> q -> fs (snd (mkdir_single e q w)) !! p = fs w !! p.
Proof.
  intros Hp. pose proof (os_mkdir_frame q w p Hp) as Hf.
  unfold mkdir_single, try_except.
  destruct (os_mkdir q w) as [[[]|x] w1]; cbn in Hf; [exact Hf|].
  destruct (is_FileNotFoundError x); [exact Hf|].
  destruct (is_OSError x); [|exact Hf].
  unfold bind, is_dir.
  destruct (negb e || negb _); exact Hf.
Qed.

(** [mkdir(parents=True)] touches the path and its ancestors only. *)
Lemma mkdir_parents_frame (e : bool) (q : Path) (w : World) (p : Path) :
  ~ p `suffix_of` q -> fs (snd (mkdir_parents e q w)) !! p = fs w !! p.
Proof.
  revert e w. induction q as [|name parent IH]; intros e w Hp.
  - assert (Hne : p <> []) by (intros ->; apply Hp; apply suffix_nil).
    pose proof (os_mkdir_frame [] w p Hne) as Hf.
    cbn [mkdir_parents]. unfold try_except.
    destruct (os_mkdir [] w) as [[[]|x] w1]; cbn in Hf; [exact Hf|].
    destruct (is_FileNotFoundError x); [exact Hf|].
    destruct (is_OSError x); [|exact Hf].
    unfold bind, is_dir. destruct (negb e || negb _); exact Hf.
  - assert (Hne : p <> name :: parent) by (intros ->; now apply Hp).
    assert (Hpar : ~ p `suffix_of` parent)
      by (intros Hs; apply Hp; now apply suffix_cons_r).
    pose proof (os_mkdir_frame (name :: parent) w p Hne) as Hf.
    cbn [mkdir_parents]. unfold try_except.
    destruct (os_mkdir (name :: parent) w) as [[[]|x] w1]; cbn in Hf; [exact Hf|].
    destruct (is_FileNotFoundError x).
    + unfold bind. specialize (IH true w1 Hpar).
      destruct (mkdir_parents true parent w1) as [[[]|y] w2]; cbn in IH.
      * rewrite mkdir_single_frame by exact Hne. congruence.
      * cbn. congruence.
    + destruct (is_OSError x); [|exact Hf].
      unfold bind, is_dir. destruct (negb e || negb _); exact Hf.
Qed.

Lemma write_text_frame (q : Path) (text : str) (w : World) (p : Path) :
  p <> q -> fs (snd (write_text q text w)) !! p = fs w !! p.
Proof.
  intros Hp. unfold write_text.
  destruct (entry (fs w) q) as [[|c]|]; try reflexivity;
    destruct (entry (fs w) (tail q)) as [[|]|]; try reflexivity;
    destruct (utf8_encodable text); cbn;
    now rewrite lookup_insert_ne by congruence.
Qed.

Section Frame.
Context `{Platform}.

(** Whatever lines 47 to 58 find and however they end, they change nothing
    but the workspace directory, its two entries, the root directory and the
    directories above it. *)
Lemma materialize_frame (w : World) (code purpose : str) (p : Path) :
  let proto_dir := proto_dir_of (clock w) purpose in
  p <> proto_dir -> p <> lit "outputs" :: proto_dir ->
  p <> lit "script.py" :: proto_dir -> ~ p `suffix_of` PROTO_ROOT ->
  fs (snd (materialize code purpose w)) !! p = fs w !! p.
Proof.
  intros proto_dir Hp Ho Hs Hroot.
  pose proof (proto_dir_of_child (clock w) purpose) as Hchild.
  fold proto_dir in Hchild.
  assert (Hsp : ~ p `suffix_of` proto_dir).
  { rewrite Hchild. intros Hsuf. apply suffix_cons_cases in Hsuf as [E|Hsuf].
    - apply Hp. now rewrite Hchild.
    - now apply Hroot. }
  assert (Hso : ~ p `suffix_of` lit "outputs" :: proto_dir).
  { intros Hsuf. apply suffix_cons_cases in Hsuf as [E|Hsuf]; [now apply Ho|].
    now apply Hsp. }
  unfold materialize.
  erewrite bind_returns by reflexivity. cbn beta zeta.
  change (joinpath PROTO_ROOT _) with proto_dir.
  rewrite joinpath_outputs, joinpath_script.
  pose proof (mkdir_parents_frame true proto_dir w p Hsp) as H1.
  unfold bind at 1.
  destruct (mkdir_parents true proto_dir w) as [[[]|x] w1]; cbn in H1;
    [|exact H1].
  pose proof (mkdir_parents_frame true (lit "outputs" :: proto_dir) w1 p Hso) as H2.
  unfold bind at 1.
  destruct (mkdir_parents true (lit "outputs" :: proto_dir) w1) as [[[]|y] w2];
    cbn in H2; [|cbn; congruence].
  pose proof (write_text_frame (lit "script.py" :: proto_dir) code w2 p Hs) as H3.
  unfold bind at 1.
  destruct (write_text (lit "script.py" :: proto_dir) code w2) as [[[]|z] w3];
    cbn in H3; cbn; congruence.
Qed.

End Frame.

(* ===================================================================== *)
(** ** Creating directories: lemmas *)
(* ===================================================================== *)

Lemma only_adds_dirs_refl (f : gmap Path Node) : only_adds_dirs f f.
Proof. intros p. now left. Qed.

Lemma only_adds_dirs_trans (f g h : gmap Path Node) :
  only_adds_dirs f g -> only_adds_dirs g h -> only_adds_dirs f h.
Proof.
  intros Hfg Hgh p. destruct (Hfg p) as [E|[E1 E2]], (Hgh p) as [E'|[E1' E2']].
  - left. congruence.
  - right. split; congruence.
  - right. split; congruence.
  - congruence.
Qed.

Lemma os_mkdir_adds (q : Path) (w : World) :
  only_adds_dirs (fs w) (fs (snd (os_mkdir q w))).
Proof.
  unfold os_mkdir. destruct (entry (fs w) q) eqn:Eq; [apply only_adds_dirs_refl|].
  destruct (entry (fs w) (tail q)) as [[|c]|]; try apply only_adds_dirs_refl.
  cbn [snd fs with_fs]. intros p.
  destruct (decide (p = q)) as [->|Hne].
  - right. split; [|apply lookup_insert_eq].
    destruct q; [discriminate | exact Eq].
  - left. now apply lookup_insert_ne.
Qed.

Lemma mkdir_handler_fs (e : bool) (q : Path) (x : exn) (w1 : World) :
  fs (snd ((if is_OSError x
            then d <- is_dir q ;; if negb e || negb d then raise x else ret tt
            else raise x) w1)) = fs w1.
Proof.
  destruct (is_OSError x); [|reflexivity].
  unfold bind, is_dir. now destruct (negb e || negb _).
Qed.

Lemma mkdir_single_adds (e : bool) (q : Path) (w : World) :
  only_adds_dirs (fs w) (fs (snd (mkdir_single e q w))).
Proof.
  pose proof (os_mkdir_adds q w) as Hf.
  unfold mkdir_single, try_except.
  destruct (os_mkdir q w) as [[[]|x] w1]; cbn [snd] in Hf |- *; [exact Hf|].
  destruct (is_FileNotFoundError x); [exact Hf|].
  now rewrite mkdir_handler_fs.
Qed.

(** [mkdir(parents=True)] only adds directories where nothing was. *)
Lemma mkdir_parents_adds (e : bool) (q : Path) (w : World) :
  only_adds_dirs (fs w) (fs (snd (mkdir_parents e q w))).
Proof.
  revert e w. induction q as [|name parent IH]; intros e w;
    [pose proof (os_mkdir_adds [] w) as Hf
    |pose proof (os_mkdir_adds (name :: parent) w) as Hf];
    cbn [mkdir_parents]; unfold try_except.
  - destruct (os_mkdir [] w) as [[[]|x] w1]; cbn [snd] in Hf |- *; [exact Hf|].
    destruct (is_FileNotFoundError x); [exact Hf|].
    now rewrite mkdir_handler_fs.
  - destruct (os_mkdir (name :: parent) w) as [[[]|x] w1];
      cbn [snd] in Hf |- *; [exact Hf|].
    destruct (is_FileNotFoundError x); [|now rewrite mkdir_handler_fs].
    unfold bind. specialize (IH true w1).
    destruct (mkdir_parents true parent w1) as [[[]|y] w2]; cbn [snd] in IH |- *.
    + eapply only_adds_dirs_trans; [exact Hf|].
      eapply only_adds_dirs_trans; [exact IH|]. apply mkdir_single_adds.
    + eapply only_adds_dirs_trans; [exact Hf | exact IH].
Qed.

Lemma clear_above_entry (f : gmap Path Node) (q : Path) :
  clear_above f q -> entry f q = None \/ entry f q = Some Dir.
Proof.
  intros Hc. specialize (Hc q). destruct (entry f q) as [[|c]|]; auto.
  now destruct (Hc c).
Qed.

Lemma clear_above_parent (f : gmap Path Node) (name : list N) (parent : Path) :
  clear_above f (name :: parent) -> clear_above f parent.
Proof. intros Hc p c Hs. apply Hc. now apply suffix_cons_r. Qed.

Lemma clear_above_adds (f f' : gmap Path Node) (q : Path) :
  only_adds_dirs f f' -> clear_above f q -> clear_above f' q.
Proof.
  intros Hadd Hc p c Hs. specialize (Hc p c Hs).
  destruct p as [|x p]; [exact Hc|]. cbn [entry] in Hc |- *.
  destruct (Hadd (x :: p)) as [E|[_ E]]; rewrite E; [exact Hc | discriminate].
Qed.

(** [mkdir(parents=True, exist_ok=True)] on an existing directory. *)
Lemma mkdir_parents_exists (q : Path) (w : World) :
  fs w !! q = Some Dir -> mkdir_parents true q w = (Returns tt, w).
Proof.
  intros Hdir. destruct q as [|name p].
  - cbn [mkdir_parents]. unfold try_except, os_mkdir. cbn.
    unfold bind, is_dir. reflexivity.
  - cbn [mkdir_parents]. unfold try_except, os_mkdir.
    change (entry (fs w) (name :: p)) with (fs w !! (name :: p)).
    rewrite Hdir. cbn [is_FileNotFoundError is_OSError].
    unfold bind, is_dir.
    change (entry (fs w) (name :: p)) with (fs w !! (name :: p)).
    now rewrite Hdir.
Qed.

Lemma clear_above_no_file (f : gmap Path Node) (d : Path) :
  clear_above f d -> file_above f d = false.
Proof.
  induction d as [|x parent IH]; intros Hc; [reflexivity|].
  cbn [file_above]. rewrite IH by now apply (clear_above_parent f x).
  specialize (Hc (x :: parent)). cbn [entry] in Hc.
  destruct (f !! (x :: parent)) as [[|c]|]; try reflexivity.
  now destruct (Hc c).
Qed.

(** [mkdir(parents=True, exist_ok=True)] succeeds whenever no regular file is
    at the path or above it, whichever of the directories exist already. *)
Lemma mkdir_parents_creates (q : Path) (w : World) :
  clear_above (fs w) q ->
  exists f', mkdir_parents true q w = (Returns tt, with_fs w f') /\
             entry f' q = Some Dir.
Proof.
  revert w. induction q as [|name parent IH]; intros w Hc.
  - exists (fs w). split; [|reflexivity].
    cbn [mkdir_parents]. unfold try_except, os_mkdir. cbn [entry].
    cbn [is_FileNotFoundError is_OSError]. unfold bind, is_dir. cbn [entry].
    cbn [negb orb]. unfold ret. now rewrite with_fs_id.
  - pose proof (clear_above_parent _ _ _ Hc) as Hcp.
    destruct (clear_above_entry _ _ Hc) as [Hq|Hq]; cbn [entry] in Hq.
    + destruct (clear_above_entry _ _ Hcp) as [Hp|Hp].
      * destruct (IH w Hcp) as (f1 & Hrun & Hdir).
        exists (<[name :: parent := Dir]> f1). split; [|apply lookup_insert_eq].
        cbn [mkdir_parents]. unfold try_except at 1, os_mkdir at 1.
        change (entry (fs w) (name :: parent)) with (fs w !! (name :: parent)).
        change (tail (name :: parent)) with parent.
        rewrite Hq, Hp. unfold missing_parent.
        change (tail (name :: parent)) with parent.
        rewrite (clear_above_no_file _ _ Hcp). cbn [is_FileNotFoundError].
        unfold bind at 1. rewrite Hrun.
        unfold mkdir_single, try_except, os_mkdir. cbn [fs with_fs].
        change (entry f1 (name :: parent)) with (f1 !! (name :: parent)).
        change (tail (name :: parent)) with parent.
        assert (Hq1 : f1 !! (name :: parent) = None).
        { pose proof (mkdir_parents_frame true parent w (name :: parent)) as Hfr.
          rewrite Hrun in Hfr. cbn [snd fs with_fs] in Hfr.
          rewrite Hfr; [exact Hq|].
          intros Hs. apply suffix_length in Hs. cbn in Hs. lia. }
        rewrite Hq1, Hdir. reflexivity.
      * exists (<[name :: parent := Dir]> (fs w)). split; [|apply lookup_insert_eq].
        cbn [mkdir_parents]. unfold try_except, os_mkdir.
        change (entry (fs w) (name :: parent)) with (fs w !! (name :: parent)).
        change (tail (name :: parent)) with parent.
        now rewrite Hq, Hp.
    + exists (fs w). split; [|exact Hq].
      rewrite mkdir_parents_exists by exact Hq. now rewrite with_fs_id.
Qed.

Lemma only_dirs_clear (f : gmap Path Node) (q : Path) :
  only_dirs f = true -> clear_above f q.
Proof.
  intros Hd p c _. destruct p as [|x p]; [discriminate|]. cbn [entry].
  intros Hf. unfold only_dirs in Hd. rewrite forallb_forall in Hd.
  specialize (Hd (x :: p, File c)). cbn in Hd.
  assert (false = true); [|discriminate].
  apply Hd. now apply list_elem_of_In, elem_of_map_to_list.
Qed.

(* ===================================================================== *)
(** ** The properties of the specification *)
(* ===================================================================== *)

Section NamingClaims.
Context `{Platform}.

(** C3.  For every purpose string, the sanitized purpose of line 48 is the
    string the specification describes (keep only alphanumeric, space and
    underscore characters; turn every space into an underscore; truncate to
    30 characters), it has at most 30 characters, and it is the purpose part
    of the workspace name. *)
Theorem safe_purpose_meets_spec (purpose : str) (now : datetime) :
  safe_purpose purpose = sanitized_purpose_spec purpose /\
  (length (safe_purpose purpose) <= 30)%nat /\
  proto_dir_of now purpose =
    (strftime now ++ [UNDERSCORE] ++ sanitized_purpose_spec purpose) :: PROTO_ROOT.
Proof.
  assert (E : safe_purpose purpose = sanitized_purpose_spec purpose).
  { rewrite safe_purpose_unfold. unfold sanitized_purpose_spec.
    do 2 f_equal. apply filter_ext. intros c. unfold keeps.
    now rewrite orb_assoc. }
  split; [exact E|]. split; [apply safe_purpose_length|].
  rewrite <- E. apply proto_dir_of_child.
Qed.


(** C10.  Whatever the purpose string, the sanitized purpose has no slash, no
    backslash and no dot; the workspace is a direct child of the root
    directory, under a name without those characters; and creating the
    workspace changes nothing on disk but that directory, its [outputs]
    and [script.py] entries, the root directory and the directories above
    the root. *)
Theorem purpose_cannot_leave_root (purpose : str) :
  Forall (fun c => c <> SLASH /\ c <> DOT /\ c <> BACKSLASH) (safe_purpose purpose) /\
  (forall now : datetime,
     exists name,
       proto_dir_of now purpose = name :: PROTO_ROOT /\
       name <> [] /\
       Forall (fun c => c <> SLASH /\ c <> DOT /\ c <> BACKSLASH) name) /\
  (forall (code : str) (w : World) (p : Path),
     fs (snd (materialize code purpose w)) !! p <> fs w !! p ->
     let proto_dir := proto_dir_of (clock w) purpose in
     p = proto_dir \/ p = lit "outputs" :: proto_dir \/
     p = lit "script.py" :: proto_dir \/ p `suffix_of` PROTO_ROOT).
Proof.
  split; [|split].
  - eapply Forall_impl; [apply safe_purpose_chars|].
    intros c [Hc| ->]; [|done].
    repeat split; intros ->; vm_compute in Hc; discriminate.
  - intros now. eexists. split; [apply proto_dir_of_child|]. split.
    + intros E. apply (f_equal (@length N)) in E.
      rewrite !length_app in E. cbn in E. lia.
    + apply workspace_name_chars.
  - intros code w p Hch proto_dir.
    destruct (decide (p = proto_dir)) as [|H1]; [now left|].
    destruct (decide (p = lit "outputs" :: proto_dir)) as [|H2]; [now right; left|].
    destruct (decide (p = lit "script.py" :: proto_dir)) as [|H3];
      [now right; right; left|].
    destruct (decide (p `suffix_of` PROTO_ROOT)) as [|H4];
      [now right; right; right|].
    exfalso. apply Hch. now apply materialize_frame.
Qed.

(** The pair the specification gives as an example for C9: the slash is
    dropped, the underscore is kept, so the two sanitized purposes differ by
    that underscore. *)
Example purpose_slash_and_underscore :
  safe_purpose (lit "a/b") = lit "ab" /\
  safe_purpose (lit "a_b") = lit "a_b".
Proof. split; reflexivity. Qed.

End NamingClaims.

(* ===================================================================== *)
(** ** Runs: lemmas *)
(* ===================================================================== *)

Lemma Qle_bool_false (x y : Q) : (y < x)%Q -> Qle_bool x y = false.
Proof.
  intros Hlt. destruct (Qle_bool x y) eqn:E; [|reflexivity].
  apply Qle_bool_iff in E. now apply Qlt_not_le in Hlt.
Qed.

Lemma Qle_bool_true (x y : Q) : (x <= y)%Q -> Qle_bool x y = true.
Proof. apply Qle_bool_iff. Qed.

(** [subprocess.run] is back within [t] seconds when the child has exited
    and its pipes are closed by then, and only then. *)
Lemma run_time_within (ch : Child) (t : Q) :
  (exits_after ch <= t)%Q -> (pipes_closed_after ch <= t)%Q ->
  Qle_bool (run_time ch) t = true.
Proof.
  intros He Hp. apply Qle_bool_true. unfold run_time.
  now destruct (Qle_bool (exits_after ch) (pipes_closed_after ch)).
Qed.

Lemma run_time_beyond (ch : Child) (t : Q) :
  (t < exits_after ch)%Q \/ (t < pipes_closed_after ch)%Q ->
  Qle_bool (run_time ch) t = false.
Proof.
  intros Hlt. apply Qle_bool_false. unfold run_time.
  destruct (Qle_bool (exits_after ch) (pipes_closed_after ch)) eqn:E.
  - apply Qle_bool_iff in E. destruct Hlt as [Hlt|Hlt]; [|exact Hlt].
    eapply Qlt_le_trans; eassumption.
  - destruct Hlt as [Hlt|Hlt]; [exact Hlt|].
    eapply Qlt_trans; [exact Hlt|]. apply Qnot_le_lt. intros Hle.
    apply Qle_bool_iff in Hle. congruence.
Qed.

(** What a directory creation that returns leaves behind. *)
Lemma os_mkdir_returns (p : Path) (w w' : World) :
  os_mkdir p w = (Returns tt, w') ->
  exists f, w' = with_fs w f /\ entry f p = Some Dir.
Proof.
  unfold os_mkdir. destruct (entry (fs w) p) eqn:E; [intros ?; discriminate|].
  destruct (entry (fs w) (tail p)) as [[|c]|]; try (intros ?; discriminate).
  intros [= <-]. eexists. split; [reflexivity|].
  destruct p; [discriminate|]. apply lookup_insert_eq.
Qed.

Lemma os_mkdir_raises (p : Path) (w w' : World) (x : exn) :
  os_mkdir p w = (Raises x, w') -> w' = w.
Proof.
  unfold os_mkdir. destruct (entry (fs w) p); [now intros [= _ <-]|].
  destruct (entry (fs w) (tail p)) as [[|c]|]; intros E;
    try discriminate E; now injection E as _ <-.
Qed.

Lemma mkdir_handler_returns (e : bool) (q : Path) (x : exn) (w1 w' : World) :
  (if is_OSError x
   then d <- is_dir q ;; if negb e || negb d then raise x else ret tt
   else raise x) w1 = (Returns tt, w') ->
  w' = w1 /\ entry (fs w1) q = Some Dir.
Proof.
  destruct (is_OSError x); [|intros ?; discriminate].
  unfold bind, is_dir.
  destruct e, (entry (fs w1) q) as [[|c]|]; cbn [negb orb]; unfold raise, ret;
    intros E; try discriminate E; injection E as <-; now split.
Qed.

Lemma mkdir_single_returns (e : bool) (p : Path) (w w' : World) :
  mkdir_single e p w = (Returns tt, w') ->
  exists f, w' = with_fs w f /\ entry f p = Some Dir.
Proof.
  unfold mkdir_single, try_except.
  destruct (os_mkdir p w) as [[[]|x] w1] eqn:E.
  - intros [= <-]. now apply os_mkdir_returns.
  - apply os_mkdir_raises in E as ->.
    destruct (is_FileNotFoundError x); [intros ?; discriminate|].
    intros Hh. apply mkdir_handler_returns in Hh as [-> Hd].
    exists (fs w). split; [now rewrite with_fs_id | exact Hd].
Qed.

Lemma mkdir_parents_returns (e : bool) (p : Path) (w w' : World) :
  mkdir_parents e p w = (Returns tt, w') ->
  exists f, w' = with_fs w f /\ entry f p = Some Dir.
Proof.
  revert e w w'. induction p as [|name parent IH]; intros e w w';
    cbn [mkdir_parents]; unfold try_except.
  - destruct (os_mkdir [] w) as [[[]|x] w1] eqn:E.
    + intros [= <-]. now apply os_mkdir_returns.
    + apply os_mkdir_raises in E as ->.
      destruct (is_FileNotFoundError x); [intros ?; discriminate|].
      intros Hh. apply mkdir_handler_returns in Hh as [-> Hd].
      exists (fs w). split; [now rewrite with_fs_id | exact Hd].
  - destruct (os_mkdir (name :: parent) w) as [[[]|x] w1] eqn:E.
    + intros [= <-]. now apply os_mkdir_returns.
    + apply os_mkdir_raises in E as ->.
      destruct (is_FileNotFoundError x).
      * unfold bind.
        destruct (mkdir_parents true parent w) as [[[]|y] w2] eqn:E2;
          [|intros ?; discriminate].
        apply IH in E2 as (f1 & -> & _).
        intros Hs. apply mkdir_single_returns in Hs as (f2 & -> & Hd).
        now exists f2.
      * intros Hh. apply mkdir_handler_returns in Hh as [-> Hd].
        exists (fs w). split; [now rewrite with_fs_id | exact Hd].
Qed.

Lemma write_text_returns (p : Path) (text : str) (w w' : World) :
  write_text p text w = (Returns tt, w') ->
  w' = with_fs w (<[p := File text]> (fs w)).
Proof.
  unfold write_text.
  destruct (entry (fs w) p) as [[|c]|], (entry (fs w) (tail p)) as [[|c']|],
    (utf8_encodable text); intros E; try discriminate E; now injection E as <-.
Qed.

Section Runs.
Context `{Platform}.

(** Lines 47 to 58 when they return: the three paths, and on disk the two
    directories and the script holding the code. *)
Lemma materialize_result (w w' : World) (code purpose : str)
    (paths : Path * Path * Path) :
  materialize code purpose w = (Returns paths, w') ->
  let proto_dir := proto_dir_of (clock w) purpose in
  paths = (proto_dir, lit "outputs" :: proto_dir, lit "script.py" :: proto_dir) /\
  w' = with_fs w (fs w') /\
  fs w' !! proto_dir = Some Dir /\
  fs w' !! (lit "outputs" :: proto_dir) = Some Dir /\
  fs w' !! (lit "script.py" :: proto_dir) = Some (File code).
Proof.
  intros Hm proto_dir.
  pose proof (proto_dir_of_child (clock w) purpose) as Hchild.
  fold proto_dir in Hchild.
  unfold materialize in Hm.
  erewrite bind_returns in Hm by reflexivity. cbn beta zeta in Hm.
  change (joinpath PROTO_ROOT _) with proto_dir in Hm.
  rewrite joinpath_outputs, joinpath_script in Hm.
  unfold bind at 1 in Hm.
  destruct (mkdir_parents true proto_dir w) as [[[]|x] w1] eqn:E1;
    [|discriminate Hm].
  unfold bind at 1 in Hm.
  destruct (mkdir_parents true (lit "outputs" :: proto_dir) w1)
    as [[[]|y] w2] eqn:E2; [|discriminate Hm].
  unfold bind at 1 in Hm.
  destruct (write_text (lit "script.py" :: proto_dir) code w2)
    as [[[]|z] w3] eqn:E3; [|discriminate Hm].
  unfold ret in Hm. injection Hm as Hpaths Hw. subst paths w3.
  apply mkdir_parents_returns in E1 as (f1 & -> & Hd1).
  pose proof (mkdir_parents_adds true (lit "outputs" :: proto_dir) (with_fs w f1))
    as Ha2.
  rewrite E2 in Ha2.
  apply mkdir_parents_returns in E2 as (f2 & -> & Hd2).
  apply write_text_returns in E3 as ->.
  cbn [fs with_fs snd] in Ha2 |- *.
  split; [reflexivity|]. split; [reflexivity|].
  split; [|split].
  - rewrite lookup_insert_ne by apply cons_ne_self.
    rewrite Hchild in Hd1 |- *. cbn [entry] in Hd1.
    destruct (Ha2 ((strftime (clock w) ++ [UNDERSCORE] ++ safe_purpose purpose)
                   :: PROTO_ROOT)) as [E|[E _]]; congruence.
  - rewrite lookup_insert_ne by (intros [= E]; now apply outputs_ne_script).
    exact Hd2.
  - apply lookup_insert_eq.
Qed.

Lemma materialize_returns (w : World) (code purpose : str) :
  workspace_creatable w code purpose = true ->
  let proto_dir := proto_dir_of (clock w) purpose in
  materialize code purpose w =
    (Returns (proto_dir, lit "outputs" :: proto_dir, lit "script.py" :: proto_dir),
     with_fs w (created_fs w code purpose)) /\
  created_fs w code purpose !! proto_dir = Some Dir /\
  created_fs w code purpose !! (lit "outputs" :: proto_dir) = Some Dir /\
  created_fs w code purpose !! (lit "script.py" :: proto_dir) = Some (File code).
Proof.
  intros Hc proto_dir. unfold workspace_creatable in Hc. unfold created_fs.
  destruct (materialize code purpose w) as [[paths|e] w'] eqn:E;
    [|discriminate Hc].
  destruct (materialize_result w w' code purpose paths E)
    as (-> & Hw & Hp & Ho & Hs).
  cbn [snd]. fold proto_dir in Hp, Ho, Hs |- *.
  split; [now rewrite <- Hw|]. now repeat split.
Qed.

(** The call once the workspace is created: lines 60 to 96 on the disk that
    lines 47 to 58 left. *)
Lemma forge_and_run_created (w : World) (code purpose : str) :
  workspace_creatable w code purpose = true ->
  let proto_dir := proto_dir_of (clock w) purpose in
  forge_and_run code purpose w =
  execute proto_dir (lit "outputs" :: proto_dir) (lit "script.py" :: proto_dir)
    (with_fs w (created_fs w code purpose)).
Proof.
  intros Hc proto_dir. unfold forge_and_run.
  erewrite bind_returns by (now apply materialize_returns). reflexivity.
Qed.

(** The call when the workspace is created and the runner is found. *)
Lemma forge_and_run_found (w : World) (code purpose uv : str) :
  workspace_creatable w code purpose = true ->
  uv_on_path w = Some uv -> uv <> [] ->
  let proto_dir := proto_dir_of (clock w) purpose in
  let w1 := with_spawned (with_fs w (created_fs w code purpose))
              (spawned w ++ [gateway_call w purpose uv]) in
  forge_and_run code purpose w =
  match child_at w code purpose uv with
  | SpawnError msg => (Returns (system_error (OtherException msg)), w1)
  | Started ch =>
      if Qle_bool (run_time ch) 180
      then
        match output ch with
        | Decoded out err =>
            (Returns (report_head proto_dir (result_of ch out err)
                      ++ stderr_section (result_of ch out err)
                      ++ artifacts_section
                           (children (fs_after ch (run_time ch))
                              (lit "outputs" :: proto_dir))),
             with_fs w1 (fs_after ch (run_time ch)))
        | Undecodable msg =>
            (Returns (system_error (OtherException msg)),
             with_fs w1 (fs_after ch (run_time ch)))
        end
      else (Returns TIMEOUT_ERROR, with_fs w1 (fs_after ch 180))
  end.
Proof.
  intros Hc Hu Hne proto_dir w1.
  rewrite forge_and_run_created by exact Hc. fold proto_dir.
  rewrite (execute_found _ _ _ _ uv) by assumption.
  reflexivity.
Qed.


(** A run in which [subprocess.run] returns a result: the report and the
    world it leaves. *)
Lemma forge_and_run_completed (w : World) (code purpose uv : str) (ch : Child)
    (out err : str) :
  workspace_creatable w code purpose = true ->
  uv_on_path w = Some uv -> uv <> [] ->
  child_at w code purpose uv = Started ch ->
  (exits_after ch <= 180)%Q -> (pipes_closed_after ch <= 180)%Q ->
  output ch = Decoded out err ->
  let proto_dir := proto_dir_of (clock w) purpose in
  exists w',
    forge_and_run code purpose w =
    (Returns (report_head proto_dir (result_of ch out err)
              ++ stderr_section (result_of ch out err)
              ++ artifacts_section (children (fs w') (lit "outputs" :: proto_dir))),
     w') /\
    fs w' = fs_after ch (run_time ch).
Proof.
  intros Hc Hu Hne Hch He Hp Hout proto_dir.
  rewrite (forge_and_run_found w code purpose uv) by assumption.
  rewrite Hch, run_time_within, Hout by assumption.
  exists (with_fs
            (with_spawned (with_fs w (created_fs w code purpose))
               (spawned w ++ [gateway_call w purpose uv]))
            (fs_after ch (run_time ch))).
  split; reflexivity.
Qed.



End Runs.

Section ReportClaims.
Context `{Platform}.


(** C6.  In a completed call, one in which the workspace is created (lines
    47 to 58 return), the runner is found and [subprocess.run] returns a
    result (the child exits and its pipes are closed within 180 seconds, and
    what it wrote decodes as text), the report is the directory line, the
    status line, the standard-output block, then the standard-error section,
    then the artifact section.  The standard-output block holds the captured
    output, or ["(No output)"] when it is empty.  The standard-error section
    is the header followed by the captured text, verbatim, when that text is
    not empty, and is absent (empty, with no header) when it is. *)
Theorem output_blocks (w : World) (code purpose uv : str) (ch : Child)
    (out err : str) :
  workspace_creatable w code purpose = true ->
  uv_on_path w = Some uv -> uv <> [] ->
  child_at w code purpose uv = Started ch ->
  (exits_after ch <= 180)%Q -> (pipes_closed_after ch <= 180)%Q ->
  output ch = Decoded out err ->
  let proto_dir := proto_dir_of (clock w) purpose in
  let result := result_of ch out err in
  exists report w' out_text err_section,
    forge_and_run code purpose w = (Returns report, w') /\
    report =
      directory_line proto_dir ++ [NL] ++ status_line result ++ [NL]
      ++ (NL :: lit "[Standard Output]") ++ [NL] ++ out_text
      ++ err_section
      ++ artifacts_section (children (fs w') (lit "outputs" :: proto_dir)) /\
    (out = [] -> out_text = lit "(No output)") /\
    (out <> [] -> out_text = out) /\
    (err = [] -> err_section = []) /\
    (err <> [] ->
       err_section = [NL; NL] ++ lit "[Standard Error]" ++ [NL] ++ err /\
       contains (NL :: lit "[Standard Error]" ++ [NL] ++ err) report) /\
    contains ((NL :: lit "[Standard Output]") ++ [NL] ++ out_text) report.
Proof.
  intros Hc Hu Hne Hch He Hp Hout proto_dir result.
  destruct (forge_and_run_completed w code purpose uv ch out err
              Hc Hu Hne Hch He Hp Hout) as (w' & Hrun & _).
  fold proto_dir result in Hrun.
  exists (report_head proto_dir result ++ stderr_section result
          ++ artifacts_section (children (fs w') (lit "outputs" :: proto_dir))),
    w', (stdout_text result), (stderr_section result).
  split; [exact Hrun|].
  split; [unfold report_head; now rewrite <- !app_assoc|].
  unfold stdout_text, stderr_section, stderr_block.
  change (stdout result) with out. change (stderr result) with err.
  split; [now intros ->|].
  split; [now destruct out|].
  split; [now intros ->|].
  split.
  - intros Herr. destruct err as [|e err'] eqn:E; [done|].
    split; [reflexivity|].
    apply contains_app_r. apply contains_app_l.
    exists [NL], []. cbn [app]. now rewrite app_nil_r.
  - unfold report_head. rewrite <- !app_assoc.
    do 4 apply contains_app_r.
    unfold stdout_text. change (stdout result) with out.
    eexists [], _. cbn [app]. now rewrite <- !app_assoc.
Qed.


End ReportClaims.

Section FailureClaims.
Context `{Platform}.

(** C4.  When the call has a child process (the workspace is created, the
    runner is found and the launch starts a child) and after 180 seconds the
    child has not exited or its output pipes are not closed, the call returns
    the fixed timeout string.  That string has no status line and no
    artifact section, and it shows no entry of the output directory,
    whatever the child had written when it was killed (what it wrote stays
    on disk). *)
Theorem timeout_reports_nothing (w : World) (code purpose uv : str) (ch : Child) :
  workspace_creatable w code purpose = true ->
  uv_on_path w = Some uv -> uv <> [] ->
  child_at w code purpose uv = Started ch ->
  (180 < exits_after ch)%Q \/ (180 < pipes_closed_after ch)%Q ->
  exists w',
    forge_and_run code purpose w = (Returns TIMEOUT_ERROR, w') /\
    fs w' = fs_after ch 180 /\
    ~ contains (lit "Status") TIMEOUT_ERROR /\
    ~ contains (lit "Success") TIMEOUT_ERROR /\
    ~ contains (lit "Failed") TIMEOUT_ERROR /\
    ~ contains (lit "Artifacts") TIMEOUT_ERROR /\
    (forall name, ~ contains (str_repr name) TIMEOUT_ERROR).
Proof.
  intros Hc Hu Hne Hch Hd.
  rewrite (forge_and_run_found w code purpose uv) by assumption.
  rewrite Hch, run_time_beyond by exact Hd.
  eexists. split; [reflexivity|]. split; [reflexivity|].
  repeat (split; [now apply not_contains|]).
  intros name Hcn.
  destruct (repr_quotes name) as (q & body & Hq & E). rewrite E in Hcn.
  apply contains_head in Hcn.
  destruct Hq as [-> | ->]; vm_compute in Hcn; intuition discriminate.
Qed.

(** C5, as amended.  When the workspace is created and the script written
    (lines 47 to 58 return) and the runner is not on the search path, the
    call returns the fixed "not found" string without launching anything;
    the world it leaves is the one lines 47 to 58 left before the lookup, in
    which the workspace directory and its output directory exist and the
    script file holds the code verbatim. *)
Theorem runner_missing_after_write (w : World) (code purpose : str) :
  workspace_creatable w code purpose = true ->
  truthy (uv_on_path w) = false ->
  let proto_dir := proto_dir_of (clock w) purpose in
  exists w',
    forge_and_run code purpose w = (Returns NOT_FOUND_ERROR, w') /\
    materialize code purpose w =
      (Returns (proto_dir, lit "outputs" :: proto_dir, lit "script.py" :: proto_dir),
       w') /\
    fs w' !! proto_dir = Some Dir /\
    fs w' !! (lit "outputs" :: proto_dir) = Some Dir /\
    fs w' !! (lit "script.py" :: proto_dir) = Some (File code) /\
    spawned w' = spawned w.
Proof.
  intros Hc Hu proto_dir.
  exists (with_fs w (created_fs w code purpose)).
  split.
  { rewrite forge_and_run_created by exact Hc.
    now apply execute_not_found. }
  destruct (materialize_returns w code purpose Hc) as (Hm & Hpd & Hod & Hsc).
  split; [exact Hm|]. cbn [fs with_fs spawned].
  split; [exact Hpd|]. split; [exact Hod|]. split; [exact Hsc|]. reflexivity.
Qed.

(** C7, as amended.  When the call reaches execution (the workspace is
    created, lines 47 to 58 return, and the runner is found), it makes
    exactly one launch, and the environment it passes is the inherited one
    with [PROTOTYPE_OUTPUT_DIR] set to the absolute path of the output
    directory of the call: every other inherited variable is passed on
    unchanged and none is removed.  When [PROTOTYPE_OUTPUT_DIR] was not
    inherited, this is the inherited environment plus that one variable. *)
Theorem child_environment (w : World) (code purpose uv : str) :
  workspace_creatable w code purpose = true ->
  uv_on_path w = Some uv -> uv <> [] ->
  let output_dir := lit "outputs" :: proto_dir_of (clock w) purpose in
  exists call,
    spawned (snd (forge_and_run code purpose w)) = spawned w ++ [call] /\
    popen_env call = <[PROTOTYPE_OUTPUT_DIR := path_str output_dir]> (environ w) /\
    popen_env call !! PROTOTYPE_OUTPUT_DIR = Some (path_str output_dir) /\
    (exists rest, path_str output_dir = SLASH :: rest) /\
    (forall k, k <> PROTOTYPE_OUTPUT_DIR -> popen_env call !! k = environ w !! k) /\
    (environ w !! PROTOTYPE_OUTPUT_DIR = None ->
       env_extended_by_one (environ w) (popen_env call)).
Proof.
  intros Hc Hu Hne output_dir.
  exists (gateway_call w purpose uv).
  split.
  { rewrite (forge_and_run_found w code purpose uv) by assumption.
    destruct (child_at w code purpose uv) as [msg|ch]; [reflexivity|].
    destruct (Qle_bool (run_time ch) 180); [|reflexivity].
    destruct (output ch); reflexivity. }
  cbn [popen_env gateway_call]. fold output_dir.
  split; [reflexivity|].
  split; [apply lookup_insert_eq|].
  split; [eexists; reflexivity|].
  split; [intros k Hk; now apply lookup_insert_ne|].
  intros Hnone. split.
  - intros k v Hkv. rewrite lookup_insert_ne; [exact Hkv|]. congruence.
  - now exists PROTOTYPE_OUTPUT_DIR, (path_str output_dir).
Qed.


End FailureClaims.

(* ===================================================================== *)
(** ** Import time *)
(* ===================================================================== *)

(** [mkdir(exist_ok=True)] that returns leaves a directory. *)
Lemma mkdir_single_dir (name : list N) (p : Path) (w w' : World) :
  mkdir_single true (name :: p) w = (Returns tt, w') ->
  fs w' !! (name :: p) = Some Dir.
Proof.
  intros Hm. now apply mkdir_single_returns in Hm as (f & -> & Hd).
Qed.

Section Init.
Context `{Platform}.

(** After the import-time step of line 13 has succeeded, the root directory
    exists, as [workspace_available] asks. *)
Lemma module_init_root (w w' : World) :
  module_init w = (Returns tt, w') -> entry (fs w') PROTO_ROOT = Some Dir.
Proof.
  unfold module_init. rewrite PROTO_ROOT_eq. apply mkdir_single_dir.
Qed.

End Init.

(* ===================================================================== *)
(** ** Sanitizing: further properties *)
(* ===================================================================== *)

Section Sanitizing.
Context `{Platform}.

Lemma keeps_space_to_underscore (c : N) : keeps (space_to_underscore c) = keeps c.
Proof.
  unfold space_to_underscore.
  destruct (c =? SPACE) eqn:E; [|reflexivity].
  apply N.eqb_eq in E. subst c. reflexivity.
Qed.

Lemma space_to_underscore_idem (c : N) :
  space_to_underscore (space_to_underscore c) = space_to_underscore c.
Proof.
  unfold space_to_underscore.
  destruct (c =? SPACE) eqn:E; [reflexivity|]. now rewrite E.
Qed.

Lemma filter_keeps_map (p : str) :
  List.filter keeps (List.map space_to_underscore p) =
  List.map space_to_underscore (List.filter keeps p).
Proof.
  induction p as [|c p IH]; [reflexivity|].
  cbn [List.map List.filter]. rewrite keeps_space_to_underscore.
  destruct (keeps c); cbn [List.map]; now rewrite IH.
Qed.

(** X1.  Sanitizing is idempotent: a sanitized purpose is kept as it is when
    it is given as a purpose again. *)
Theorem safe_purpose_idempotent (purpose : str) :
  safe_purpose (safe_purpose purpose) = safe_purpose purpose.
Proof.
  pose proof (safe_purpose_chars purpose) as Hc.
  pose proof (safe_purpose_length purpose) as Hl.
  rewrite (safe_purpose_unfold (safe_purpose purpose)).
  generalize dependent (safe_purpose purpose). intros s Hc Hl.
  assert (Hf : List.filter keeps s = s).
  { clear Hl. induction Hc as [|c s Hc _ IH]; [reflexivity|].
    cbn [List.filter].
    assert (keeps c = true) as ->.
    { unfold keeps. destruct Hc as [-> | ->]; [reflexivity|].
      apply orb_true_r. }
    now rewrite IH. }
  assert (Hm : List.map space_to_underscore s = s).
  { clear Hl Hf. induction Hc as [|c s Hc _ IH]; [reflexivity|].
    cbn [List.map]. rewrite IH. f_equal.
    unfold space_to_underscore.
    destruct (c =? SPACE) eqn:E; [|reflexivity].
    apply N.eqb_eq in E. subst c.
    destruct Hc as [Hc|Hc]; [vm_compute in Hc|]; discriminate. }
  rewrite Hf, Hm. apply take_ge. lia.
Qed.

(** X2.  The sanitized purpose is empty exactly when the purpose has no
    alphanumeric character, space or underscore (the empty purpose
    included); the workspace is then named by the timestamp and a trailing
    underscore alone. *)
Theorem safe_purpose_empty (purpose : str) (now : datetime) :
  (safe_purpose purpose = [] <-> Forall (fun c => keeps c = false) purpose) /\
  (safe_purpose purpose = [] ->
   proto_dir_of now purpose = (strftime now ++ [UNDERSCORE]) :: PROTO_ROOT).
Proof.
  split.
  - rewrite safe_purpose_unfold. split.
    + intros E. induction purpose as [|c p IH]; [constructor|].
      cbn [List.filter] in E. destruct (keeps c) eqn:Hk.
      * cbn in E. discriminate.
      * constructor; [exact Hk | now apply IH].
    + intros Hall. induction Hall as [|c p Hc _ IH]; [reflexivity|].
      cbn [List.filter]. now rewrite Hc.
  - intros E. rewrite proto_dir_of_child, E. reflexivity.
Qed.

(** X3.  Only the first 30 kept characters count: once a purpose has 30 of
    them, whatever follows does not change the sanitized purpose, so the
    workspace name is the same. *)
Theorem safe_purpose_ignores_tail (purpose tail : str) (now : datetime) :
  (30 <= length (List.filter keeps purpose))%nat ->
  safe_purpose (purpose ++ tail) = safe_purpose purpose /\
  proto_dir_of now (purpose ++ tail) = proto_dir_of now purpose.
Proof.
  intros Hlen.
  assert (E : safe_purpose (purpose ++ tail) = safe_purpose purpose).
  { rewrite !safe_purpose_unfold, List.filter_app, List.map_app.
    apply take_app_le. rewrite length_map. exact Hlen. }
  split; [exact E|]. unfold proto_dir_of. now rewrite E.
Qed.

(** X4.  Spaces and underscores are not told apart: turning the spaces of a
    purpose into underscores beforehand gives the same sanitized purpose and
    the same workspace name. *)
Theorem safe_purpose_spaces_as_underscores (purpose : str) (now : datetime) :
  safe_purpose (List.map space_to_underscore purpose) = safe_purpose purpose /\
  proto_dir_of now (List.map space_to_underscore purpose) = proto_dir_of now purpose.
Proof.
  assert (E : safe_purpose (List.map space_to_underscore purpose)
              = safe_purpose purpose).
  { rewrite !safe_purpose_unfold, filter_keeps_map. f_equal.
    rewrite map_map. apply map_ext. intros c. apply space_to_underscore_idem. }
  split; [exact E|]. unfold proto_dir_of. now rewrite E.
Qed.

End Sanitizing.

(* ===================================================================== *)
(** ** Timestamps and workspace names: further properties *)
(* ===================================================================== *)

Lemma below_forallb (P : N -> bool) (k : N) :
  forallb P (List.map N.of_nat (seq 0 (N.to_nat k))) = true ->
  forall n, n < k -> P n = true.
Proof.
  intros Hall n Hn. rewrite forallb_forall in Hall. apply Hall.
  apply in_map_iff. exists (N.to_nat n). split; [apply N2Nat.id|].
  apply in_seq. lia.
Qed.

(** Padding to two or four digits gives that many digits, and the number
    can be read back. *)
Lemma zero_pad_2 (n : N) :
  n < 100 -> length (zero_pad 2 n) = 2%nat /\ digits_value (zero_pad 2 n) = n.
Proof.
  intros Hn.
  pose proof (below_forallb
                (fun n => Nat.eqb (length (zero_pad 2 n)) 2
                          && (digits_value (zero_pad 2 n) =? n)) 100) as Hall.
  cbv beta in Hall. specialize (Hall ltac:(vm_compute; reflexivity) n Hn).
  apply andb_true_iff in Hall as [Hl Hv].
  split; [now apply Nat.eqb_eq | now apply N.eqb_eq].
Qed.

Lemma zero_pad_4 (n : N) :
  n < 10000 -> length (zero_pad 4 n) = 4%nat /\ digits_value (zero_pad 4 n) = n.
Proof.
  intros Hn.
  pose proof (below_forallb
                (fun n => Nat.eqb (length (zero_pad 4 n)) 4
                          && (digits_value (zero_pad 4 n) =? n)) 10000) as Hall.
  cbv beta in Hall. specialize (Hall ltac:(vm_compute; reflexivity) n Hn).
  apply andb_true_iff in Hall as [Hl Hv].
  split; [now apply Nat.eqb_eq | now apply N.eqb_eq].
Qed.

(** Reading a string laid out as a timestamp. *)
Lemma read_layout (y mo d h mi s : str) (sep : N) :
  length y = 4%nat -> length mo = 2%nat -> length d = 2%nat ->
  length h = 2%nat -> length mi = 2%nat -> length s = 2%nat ->
  read_timestamp (y ++ mo ++ d ++ [sep] ++ h ++ mi ++ s) =
  {| year := digits_value y; month := digits_value mo; day := digits_value d;
     hour := digits_value h; minute := digits_value mi;
     second := digits_value s; microsecond := 0 |}.
Proof.
  intros Hy Hmo Hd Hh Hmi Hs.
  destruct y as [|y1 [|y2 [|y3 [|y4 [|]]]]]; try discriminate.
  destruct mo as [|m1 [|m2 [|]]]; try discriminate.
  destruct d as [|d1 [|d2 [|]]]; try discriminate.
  destruct h as [|h1 [|h2 [|]]]; try discriminate.
  destruct mi as [|i1 [|i2 [|]]]; try discriminate.
  destruct s as [|s1 [|s2 [|]]]; try discriminate.
  reflexivity.
Qed.

Lemma valid_datetime_bounds (t : datetime) :
  valid_datetime t = true ->
  year t < 10000 /\ month t < 100 /\ day t < 100 /\
  hour t < 100 /\ minute t < 100 /\ second t < 100.
Proof.
  unfold valid_datetime. rewrite !andb_true_iff, !N.leb_le. lia.
Qed.

(** A timestamp of a date with a four-digit year: 15 characters, from which
    the fields are read back. *)
Lemma strftime_layout (t : datetime) :
  valid_datetime t = true ->
  length (strftime t) = 15%nat /\
  read_timestamp (strftime t) =
  {| year := year t; month := month t; day := day t;
     hour := hour t; minute := minute t; second := second t;
     microsecond := 0 |}.
Proof.
  intros Hv. apply valid_datetime_bounds in Hv as (Hy & Hmo & Hd & Hh & Hmi & Hs).
  destruct (zero_pad_4 _ Hy) as [Ly Vy].
  destruct (zero_pad_2 _ Hmo) as [Lmo Vmo].
  destruct (zero_pad_2 _ Hd) as [Ld Vd].
  destruct (zero_pad_2 _ Hh) as [Lh Vh].
  destruct (zero_pad_2 _ Hmi) as [Lmi Vmi].
  destruct (zero_pad_2 _ Hs) as [Ls Vs].
  split.
  { unfold strftime. rewrite !length_app, Ly, Lmo, Ld, Lh, Lmi, Ls. reflexivity. }
  unfold strftime. rewrite read_layout by assumption.
  now rewrite Vy, Vmo, Vd, Vh, Vmi, Vs.
Qed.

(** X5.  A timestamp has 15 characters and can be read back: the fields of
    the date and time, down to the second, are recovered from it (the
    microseconds are not written). *)
Theorem strftime_round_trip (t : datetime) :
  valid_datetime t = true ->
  length (strftime t) = 15%nat /\
  read_timestamp (strftime t) =
  {| year := year t; month := month t; day := day t;
     hour := hour t; minute := minute t; second := second t;
     microsecond := 0 |}.
Proof. apply strftime_layout. Qed.

Section Names2.
Context `{Platform}.

(** X6.  Two calls get the same workspace directory exactly when
    [datetime.now()] shows them the same local date and time down to the
    second and their purposes sanitize to the same string.  (The clock shows
    the same date and time to two calls within one second, and also to calls
    an hour apart when the local time is set back in between.) *)
Theorem workspace_collision_iff (t1 t2 : datetime) (p1 p2 : str) :
  valid_datetime t1 = true -> valid_datetime t2 = true ->
  (proto_dir_of t1 p1 = proto_dir_of t2 p2 <->
   same_second t1 t2 /\ safe_purpose p1 = safe_purpose p2).
Proof.
  intros Hv1 Hv2. split.
  - rewrite !proto_dir_of_child. intros [= E].
    destruct (strftime_layout t1 Hv1) as [L1 R1].
    destruct (strftime_layout t2 Hv2) as [L2 R2].
    apply app_inj_1 in E as [Et Ep]; [|congruence].
    injection Ep as Ep. split; [|exact Ep].
    rewrite Et, R2 in R1. injection R1 as Ey Emo Ed Eh Emi Es.
    unfold same_second. repeat split; congruence.
  - intros [Hsec Hsafe]. unfold proto_dir_of.
    now rewrite Hsafe, (strftime_same_second _ _ Hsec).
Qed.

(** X7.  The name of a workspace directory has between 16 and 46
    characters: the 15 of the timestamp, an underscore, and at most 30 of
    the sanitized purpose. *)
Theorem workspace_name_length (t : datetime) (purpose : str) :
  valid_datetime t = true ->
  exists name,
    proto_dir_of t purpose = name :: PROTO_ROOT /\
    length name = (16 + length (safe_purpose purpose))%nat /\
    (16 <= length name <= 46)%nat.
Proof.
  intros Hv. destruct (strftime_layout t Hv) as [L _].
  pose proof (safe_purpose_length purpose) as Hl.
  eexists. split; [apply proto_dir_of_child|].
  rewrite !length_app, L. cbn [length]. lia.
Qed.

End Names2.

(* ===================================================================== *)
(** ** Workspaces: further properties *)
(* ===================================================================== *)

Section Workspace2.
Context `{Platform}.

(** Lines 53 and 54 when no regular file is in the way: both directories
    are there afterwards, whatever had to be created, and the script is
    written next. *)
Lemma materialize_dirs (w : World) (code purpose : str) :
  let proto_dir := proto_dir_of (clock w) purpose in
  let output_dir := lit "outputs" :: proto_dir in
  let script_path := lit "script.py" :: proto_dir in
  clear_above (fs w) output_dir ->
  exists f2,
    f2 !! proto_dir = Some Dir /\ f2 !! output_dir = Some Dir /\
    f2 !! script_path = fs w !! script_path /\
    only_adds_dirs (fs w) f2 /\
    materialize code purpose w =
    bind (write_text script_path code)
      (fun _ => ret (proto_dir, output_dir, script_path)) (with_fs w f2).
Proof.
  intros proto_dir output_dir script_path Hc.
  pose proof (proto_dir_of_child (clock w) purpose) as Hchild.
  fold proto_dir in Hchild.
  destruct (mkdir_parents_creates proto_dir w (clear_above_parent _ _ _ Hc))
    as (f1 & Hrun1 & Hd1).
  pose proof (mkdir_parents_adds true proto_dir w) as Ha1.
  rewrite Hrun1 in Ha1. cbn [snd fs with_fs] in Ha1.
  destruct (mkdir_parents_creates output_dir (with_fs w f1)) as (f2 & Hrun2 & Hd2).
  { cbn [fs with_fs]. now apply (clear_above_adds (fs w)). }
  pose proof (mkdir_parents_adds true output_dir (with_fs w f1)) as Ha2.
  rewrite Hrun2 in Ha2. cbn [snd fs with_fs] in Ha2.
  exists f2.
  assert (Hp1 : f1 !! proto_dir = Some Dir) by (rewrite Hchild in Hd1 |- *; exact Hd1).
  split.
  { destruct (Ha2 proto_dir) as [E|[E _]]; congruence. }
  split; [exact Hd2|].
  split.
  { pose proof (mkdir_parents_frame true proto_dir w script_path) as F1.
    pose proof (mkdir_parents_frame true output_dir (with_fs w f1) script_path) as F2.
    rewrite Hrun1 in F1. rewrite Hrun2 in F2. cbn [snd fs with_fs] in F1, F2.
    rewrite F2, F1; [reflexivity| |].
    - intros Hs. apply suffix_length in Hs. cbn in Hs. lia.
    - intros Hs. apply suffix_cons_cases in Hs as [E|Hs].
      + injection E as E. now apply outputs_ne_script.
      + apply suffix_length in Hs. cbn in Hs. lia. }
  split; [now apply (only_adds_dirs_trans _ f1)|].
  unfold materialize.
  erewrite bind_returns by reflexivity. cbn beta zeta.
  change (joinpath PROTO_ROOT _) with proto_dir.
  rewrite joinpath_outputs, joinpath_script.
  fold output_dir script_path.
  erewrite bind_returns by exact Hrun1.
  erewrite bind_returns by exact Hrun2.
  reflexivity.
Qed.


(** X9.  A regular file at the workspace path stops the call at line 53: it
    raises [FileExistsError], and it has written nothing and launched
    nothing. *)
Theorem file_in_the_way (w : World) (code purpose : str) (content : str) :
  fs w !! proto_dir_of (clock w) purpose = Some (File content) ->
  forge_and_run code purpose w = (Raises FileExistsError, w).
Proof.
  intros Hf.
  pose proof (proto_dir_of_child (clock w) purpose) as Hchild.
  assert (Hm : materialize code purpose w = (Raises FileExistsError, w)).
  { unfold materialize.
    erewrite bind_returns by reflexivity. cbn beta zeta.
    change (joinpath PROTO_ROOT _) with (proto_dir_of (clock w) purpose).
    rewrite Hchild in Hf |- *.
    unfold bind at 1. cbn [mkdir_parents]. unfold try_except, os_mkdir.
    cbn [entry]. rewrite Hf. cbn [is_FileNotFoundError is_OSError].
    unfold bind, is_dir. cbn [entry]. rewrite Hf. reflexivity. }
  unfold forge_and_run, bind. now rewrite Hm.
Qed.

(** X10.  A directory at the path of the script stops the call at line 57:
    it raises [IsADirectoryError] after the workspace directories were
    made, and it launches nothing. *)
Theorem script_path_is_directory (w : World) (code purpose : str) :
  let proto_dir := proto_dir_of (clock w) purpose in
  clear_above (fs w) (lit "outputs" :: proto_dir) ->
  fs w !! (lit "script.py" :: proto_dir) = Some Dir ->
  exists w',
    forge_and_run code purpose w = (Raises IsADirectoryError, w') /\
    fs w' !! (lit "outputs" :: proto_dir) = Some Dir /\
    fs w' !! (lit "script.py" :: proto_dir) = Some Dir /\
    spawned w' = spawned w.
Proof.
  intros proto_dir Hc Hs.
  destruct (materialize_dirs w code purpose Hc) as (f2 & Hp & Ho & Hsc & Hadd & Hm).
  fold proto_dir in Hp, Ho, Hsc, Hm. rewrite Hs in Hsc.
  exists (with_fs w f2).
  split; [|now cbn [fs with_fs spawned]].
  unfold forge_and_run. unfold bind at 1. rewrite Hm.
  unfold bind, write_text. cbn [entry fs with_fs]. now rewrite Hsc.
Qed.



End Workspace2.

(* ===================================================================== *)
(** ** Import time: further properties *)
(* ===================================================================== *)

Section Init2.
Context `{Platform}.



End Init2.

(* ===================================================================== *)
(** ** Running: further properties *)
(* ===================================================================== *)


Section Running2.
Context `{Platform}.

(** X15.  Once the workspace is created and the script written (lines 47 to
    58 return) the call never raises: it returns the "not found" string and
    launches nothing, or it makes one launch and returns the timeout string,
    a system-error string, or a report that begins with the directory
    line. *)
Theorem forge_and_run_answers (w : World) (code purpose : str) :
  workspace_creatable w code purpose = true ->
  exists answer w',
    forge_and_run code purpose w = (Returns answer, w') /\
    (answer = NOT_FOUND_ERROR /\ spawned w' = spawned w \/
     exists call,
       spawned w' = spawned w ++ [call] /\
       (answer = TIMEOUT_ERROR \/
        (exists msg, answer = system_error (OtherException msg)) \/
        (exists rest,
           answer = directory_line (proto_dir_of (clock w) purpose) ++ NL :: rest))).
Proof.
  intros Hc.
  destruct (truthy (uv_on_path w)) eqn:Hu.
  - destruct (uv_on_path w) as [[|c uv]|] eqn:Huv; try discriminate.
    rewrite (forge_and_run_found w code purpose (c :: uv)) by done.
    destruct (child_at w code purpose (c :: uv)) as [msg|ch].
    + eexists _, _. split; [reflexivity|]. right. eexists. split; [reflexivity|].
      right. left. now exists msg.
    + destruct (Qle_bool (run_time ch) 180).
      * destruct (output ch) as [out err|msg].
        -- eexists _, _. split; [reflexivity|]. right. eexists.
           split; [reflexivity|].
           right. right. unfold report_head. eexists.
           rewrite <- !app_assoc. reflexivity.
        -- eexists _, _. split; [reflexivity|]. right. eexists.
           split; [reflexivity|].
           right. left. now exists msg.
      * eexists _, _. split; [reflexivity|]. right. eexists. split; [reflexivity|].
        now left.
  - rewrite forge_and_run_created by exact Hc.
    rewrite execute_not_found by exact Hu.
    eexists _, _. split; [reflexivity|]. now left.
Qed.

(** X16.  When [subprocess.run] raises anything but a timeout, the call
    returns the system-error string with the message of the exception.  When
    it raises before a child runs, the disk is as lines 47 to 58 left it,
    with the script holding the code.  When it raises after the child ran,
    because what the child wrote does not decode as text, the disk is as the
    child left it. *)
Theorem system_error_reported (w : World) (code purpose uv msg : str) :
  workspace_creatable w code purpose = true ->
  uv_on_path w = Some uv -> uv <> [] ->
  (child_at w code purpose uv = SpawnError msg ->
   exists w',
     forge_and_run code purpose w =
       (Returns (CROSS_MARK :: lit " System Error: " ++ msg), w') /\
     fs w' = created_fs w code purpose /\
     fs w' !! (lit "script.py" :: proto_dir_of (clock w) purpose)
     = Some (File code)) /\
  (forall ch,
     child_at w code purpose uv = Started ch ->
     (exits_after ch <= 180)%Q -> (pipes_closed_after ch <= 180)%Q ->
     output ch = Undecodable msg ->
     exists w',
       forge_and_run code purpose w =
         (Returns (CROSS_MARK :: lit " System Error: " ++ msg), w') /\
       fs w' = fs_after ch (run_time ch)).
Proof.
  intros Hc Hu Hne. split.
  - intros Hch.
    rewrite (forge_and_run_found w code purpose uv) by assumption.
    rewrite Hch. eexists. split; [reflexivity|]. split; [reflexivity|].
    cbn [fs with_fs with_spawned].
    now destruct (materialize_returns w code purpose Hc) as (_ & _ & _ & Hs).
  - intros ch Hch He Hp Hout.
    rewrite (forge_and_run_found w code purpose uv) by assumption.
    rewrite Hch, run_time_within, Hout by assumption.
    eexists. split; reflexivity.
Qed.


End Running2.

(* ===================================================================== *)
(** ** Reporting: further properties *)
(* ===================================================================== *)


Lemma hex_digit_not_newline (n : N) : n < 16 -> hex_digit n <> NL.
Proof.
  unfold hex_digit, NL. intros Hn. destruct (n <? 10) eqn:E.
  - apply N.ltb_lt in E. lia.
  - lia.
Qed.

Lemma hex_fixed_no_newline (width : nat) (n : N) : ~ In NL (hex_fixed width n).
Proof.
  revert n. induction width as [|k IH]; intros n; [easy|].
  cbn [hex_fixed]. intros Hin. apply in_app_or in Hin as [Hin|[Hin|[]]].
  - now apply (IH (n / 16)).
  - apply (hex_digit_not_newline (n mod 16)); [|exact Hin].
    apply N.mod_lt. discriminate.
Qed.

Section Reporting2.
Context `{Platform}.

Lemma repr_char_no_newline (q c : N) :
  q <> NL -> ~ In NL (repr_char q c).
Proof.
  intros Hq. unfold repr_char.
  destruct ((c =? q) || (c =? BACKSLASH)) eqn:E1.
  { apply orb_true_iff in E1 as [E|E]; apply N.eqb_eq in E; subst c.
    - intros [Hin|[Hin|[]]]; [discriminate | congruence].
    - intros [Hin|[Hin|[]]]; discriminate. }
  destruct (c =? 9); [intros [Hin|[Hin|[]]]; discriminate|].
  destruct (c =? 10) eqn:E3; [intros [Hin|[Hin|[]]]; discriminate|].
  destruct (c =? 13); [intros [Hin|[Hin|[]]]; discriminate|].
  apply N.eqb_neq in E3.
  assert (Hx : forall k, ~ In NL (lit "\x" ++ hex_fixed k c)).
  { intros k [Hin|[Hin|Hin]]; [discriminate | discriminate |].
    now apply hex_fixed_no_newline in Hin. }
  assert (Hc : ~ In NL [c]) by (intros [Hin|[]]; now apply E3).
  destruct ((c <? 32) || (c =? 127)); [apply Hx|].
  destruct (c <? 127); [exact Hc|].
  destruct (unicode_isprintable c); [exact Hc|].
  destruct (c <=? 255); [apply Hx|].
  destruct (c <=? 65535).
  - intros [Hin|[Hin|Hin]]; [discriminate | discriminate |].
    now apply hex_fixed_no_newline in Hin.
  - intros [Hin|[Hin|Hin]]; [discriminate | discriminate |].
    now apply hex_fixed_no_newline in Hin.
Qed.

Lemma str_repr_no_newline (s : str) : ~ In NL (str_repr s).
Proof.
  unfold str_repr.
  assert (Hq : repr_quote s <> NL)
    by (unfold repr_quote; destruct (_ && _); discriminate).
  revert Hq. generalize (repr_quote s). intros q Hq [Hin|Hin]; [congruence|].
  apply in_app_or in Hin as [Hin|[Hin|[]]]; [|congruence].
  apply in_flat_map in Hin as (c & _ & Hin).
  now apply (repr_char_no_newline q c).
Qed.

Lemma str_join_no_newline (l : list str) :
  Forall (fun x => ~ In NL x) l -> ~ In NL (str_join (lit ", ") l).
Proof.
  induction 1 as [|a l Ha _ IH]; [easy|].
  destruct l as [|b l]; [exact Ha|].
  change (~ In NL (a ++ lit ", " ++ str_join (lit ", ") (b :: l))).
  intros Hin. apply in_app_or in Hin as [Hin|Hin]; [now apply Ha|].
  apply in_app_or in Hin as [Hin|Hin]; [|now apply IH].
  destruct Hin as [Hin|[Hin|[]]]; discriminate.
Qed.

(** X18.  No file name can break the layout of the report: whatever the
    names are (line breaks included), the list of names is written without
    any newline, so the artifact section is its blank line and one line. *)
Theorem artifact_listing_is_one_line (artifacts : list Path) :
  artifacts <> [] ->
  exists line,
    artifacts_section artifacts = NL :: NL :: line /\ ~ In NL line.
Proof.
  intros Hne. destruct artifacts as [|a arts]; [done|].
  eexists. split; [reflexivity|].
  intros [Hin|Hin]; [discriminate|].
  apply in_app_or in Hin as [Hin|Hin].
  { vm_compute in Hin. intuition discriminate. }
  unfold list_str in Hin.
  apply in_app_or in Hin as [[Hin|[]]|Hin]; [discriminate|].
  apply in_app_or in Hin as [Hin|[Hin|[]]]; [|discriminate].
  revert Hin. apply str_join_no_newline.
  apply List.Forall_forall. intros x Hx.
  apply in_map_iff in Hx as (n & <- & _). apply str_repr_no_newline.
Qed.


End Reporting2.

(** X20.  The status line tells the exit code: two results with the same
    status line have the same exit code. *)
Theorem status_line_tells_exit_code (r1 r2 : CompletedProcess) :
  status_line r1 = status_line r2 -> returncode r1 = returncode r2.
Proof.
  unfold status_line. intros E.
  destruct (returncode r1 =? 0)%Z eqn:E1, (returncode r2 =? 0)%Z eqn:E2.
  - apply Z.eqb_eq in E1, E2. congruence.
  - apply (f_equal (fun s => nth 10 s 0)) in E. vm_compute in E. discriminate.
  - apply (f_equal (fun s => nth 10 s 0)) in E. vm_compute in E. discriminate.
  - change ((BAR_CHART :: lit " Status: " ++ lit "Failed (Exit Code: ")
            ++ int_str (returncode r1) ++ lit ")" =
            (BAR_CHART :: lit " Status: " ++ lit "Failed (Exit Code: ")
            ++ int_str (returncode r2) ++ lit ")") in E.
    apply app_inv_head in E. apply app_inj_tail in E as [E _].
    now apply int_str_inj.
Qed.

(* ===================================================================== *)
(** ** The properties on sample runs *)
(* ===================================================================== *)

#[local] Existing Instance sample_platform.




Lemma sample_output_dir_parts :
  rev (parse_parts (path_str (lit "outputs" :: proto_dir_of sample_clock sample_purpose)))
  = lit "outputs" :: proto_dir_of sample_clock sample_purpose.
Proof. vm_compute. reflexivity. Qed.

(** In a sample world the launch of the gateway starts the sample process in
    the output directory of the call. *)
Lemma sample_child_at (secs : Q) (rc : Z) (out err name : str) :
  let w := sample_world secs rc out err name (Some sample_uv) in
  child_at w sample_code sample_purpose sample_uv =
  Started (sample_process secs rc out err name
             (lit "outputs" :: proto_dir_of sample_clock sample_purpose)
             (created_fs w sample_code sample_purpose)).
Proof.
  intros w. unfold child_at. cbn [launch sample_world w]. unfold sample_child.
  cbn [popen_env gateway_call]. rewrite lookup_insert_eq.
  cbn [clock w sample_world]. now rewrite sample_output_dir_parts.
Qed.


(** The hypotheses shared by the sample runs with a runner. *)
Ltac sample_run w secs rc out err name Hc Hu Hne Hch :=
  assert (Hc : workspace_creatable w sample_code sample_purpose = true)
    by (vm_compute; reflexivity);
  assert (Hu : uv_on_path w = Some sample_uv) by reflexivity;
  assert (Hne : sample_uv <> []) by discriminate;
  pose proof (sample_child_at secs rc out err name) as Hch;
  cbv zeta in Hch.



(** The same for a child that exits with code 0 after one second and leaves
    a process behind that keeps its output pipes open: [subprocess.run]
    waits for the pipes, and the call returns the timeout string. *)
Example exit_zero_pipes_held :
  let w := world_with_child pipe_holder_child in
  exists ch w',
    child_at w sample_code sample_purpose sample_uv = Started ch /\
    exit_code ch = 0%Z /\ (exits_after ch <= 180)%Q /\
    forge_and_run sample_code sample_purpose w = (Returns TIMEOUT_ERROR, w').
Proof.
  intros w.
  assert (Hc : workspace_creatable w sample_code sample_purpose = true)
    by (vm_compute; reflexivity).
  assert (Hd : (1 <= 180)%Q) by (vm_compute; discriminate).
  assert (Hp : (180 < 200)%Q) by (vm_compute; reflexivity).
  exists (pipe_holder_child (created_fs w sample_code sample_purpose)).
  eexists.
  split; [reflexivity|]. split; [reflexivity|]. split; [exact Hd|].
  rewrite (forge_and_run_found w sample_code sample_purpose sample_uv)
    by (assumption || reflexivity || discriminate).
  assert (Hch : child_at w sample_code sample_purpose sample_uv =
                Started (pipe_holder_child
                           (created_fs w sample_code sample_purpose)))
    by reflexivity.
  rewrite Hch, run_time_beyond by (right; exact Hp).
  reflexivity.
Qed.

(** C6 on a sample run with no output and one line of errors. *)
Lemma output_blocks_witness :
  workspace_creatable
    (sample_world 2 0 [] (lit "warn") (lit "plot.png") (Some sample_uv))
    sample_code sample_purpose = true /\
  exists report w',
    forge_and_run sample_code sample_purpose
      (sample_world 2 0 [] (lit "warn") (lit "plot.png") (Some sample_uv))
    = (Returns report, w') /\
    contains (NL :: lit "[Standard Output]" ++ [NL] ++ lit "(No output)") report /\
    contains (NL :: lit "[Standard Error]" ++ [NL] ++ lit "warn") report.
Proof.
  set (w := sample_world 2 0 [] (lit "warn") (lit "plot.png") (Some sample_uv)).
  sample_run w 2%Q 0%Z (@nil N) (lit "warn") (lit "plot.png") Hc Hu Hne Hch.
  assert (Hd : (2 <= 180)%Q) by (vm_compute; discriminate).
  destruct (output_blocks w sample_code sample_purpose sample_uv
              _ [] (lit "warn") Hc Hu Hne Hch Hd Hd eq_refl)
    as (report & w' & out_text & err_section & Hrun & _ & Hout & _ & _ & Herr & Hcn).
  split; [exact Hc|].
  exists report, w'. split; [exact Hrun|].
  rewrite (Hout eq_refl) in Hcn. split; [exact Hcn|].
  now destruct (Herr ltac:(discriminate)) as [_ He].
Defined.



(** C4 on a sample run of 200 seconds: the file the child wrote is on disk
    and the answer is the timeout string. *)
Lemma timeout_reports_nothing_witness :
  workspace_creatable
    (sample_world 200 0 (lit "slow") [] (lit "partial.csv") (Some sample_uv))
    sample_code sample_purpose = true /\
  (180 < 200)%Q /\
  exists w',
    forge_and_run sample_code sample_purpose
      (sample_world 200 0 (lit "slow") [] (lit "partial.csv") (Some sample_uv))
    = (Returns TIMEOUT_ERROR, w') /\
    is_Some (fs w' !! (lit "partial.csv" :: lit "outputs"
                       :: proto_dir_of sample_clock sample_purpose)).
Proof.
  set (w := sample_world 200 0 (lit "slow") [] (lit "partial.csv") (Some sample_uv)).
  sample_run w 200%Q 0%Z (lit "slow") (@nil N) (lit "partial.csv")
    Hc Hu Hne Hch.
  assert (Hd : (180 < 200)%Q) by (vm_compute; reflexivity).
  destruct (timeout_reports_nothing w sample_code sample_purpose sample_uv _
              Hc Hu Hne Hch (or_introl Hd)) as (w' & Hrun & Hfs & _).
  split; [exact Hc|]. split; [exact Hd|].
  exists w'. split; [exact Hrun|].
  rewrite Hfs. cbn [fs_after sample_process].
  change (Qle_bool 1 180) with true. cbn iota.
  eexists. apply lookup_insert_eq.
Defined.

(** C5 on a sample world without the runner. *)
Lemma runner_missing_after_write_witness :
  workspace_creatable
    (sample_world 2 0 [] [] (lit "plot.png") None)
    sample_code sample_purpose = true /\
  exists w',
    forge_and_run sample_code sample_purpose
      (sample_world 2 0 [] [] (lit "plot.png") None)
    = (Returns NOT_FOUND_ERROR, w') /\
    fs w' !! (lit "script.py" :: proto_dir_of sample_clock sample_purpose)
    = Some (File sample_code).
Proof.
  set (w := sample_world 2 0 [] [] (lit "plot.png") None).
  assert (Hc : workspace_creatable w sample_code sample_purpose = true)
    by (vm_compute; reflexivity).
  destruct (runner_missing_after_write w sample_code sample_purpose Hc eq_refl)
    as (w' & Hrun & _ & _ & _ & Hscript & _).
  split; [exact Hc|]. exists w'. split; [exact Hrun | exact Hscript].
Defined.

(** C5 as the specification words it fails: the runner is absent, yet the
    call raises instead of returning the "not found" string.  With a regular
    file where the workspace directory should go, line 53 raises
    [FileExistsError] and no script is written; with code that holds a lone
    surrogate, line 58 raises [UnicodeEncodeError] and the script file is
    left empty. *)
Lemma runner_missing_yet_raises :
  let w := sample_world 2 0 [] [] (lit "plot.png") None in
  let proto_dir := proto_dir_of sample_clock sample_purpose in
  let blocked := with_fs w (<[proto_dir := File (lit "old")]> (fs w)) in
  uv_on_path w = None /\ uv_on_path blocked = None /\
  (exists w',
     forge_and_run sample_code sample_purpose blocked
     = (Raises FileExistsError, w') /\
     fs w' !! (lit "script.py" :: proto_dir) = None) /\
  (exists w',
     forge_and_run [55296] sample_purpose w = (Raises UnicodeEncodeError, w') /\
     fs w' !! (lit "script.py" :: proto_dir) = Some (File [])).
Proof.
  intros w proto_dir blocked.
  split; [reflexivity|]. split; [reflexivity|]. split.
  - assert (E : fst (forge_and_run sample_code sample_purpose blocked)
                = Raises FileExistsError) by (vm_compute; reflexivity).
    assert (F : fs (snd (forge_and_run sample_code sample_purpose blocked))
                  !! (lit "script.py" :: proto_dir) = None)
      by (vm_compute; reflexivity).
    destruct (forge_and_run sample_code sample_purpose blocked) as [r w'].
    cbn [fst snd] in E, F. subst r. now exists w'.
  - assert (E : fst (forge_and_run [55296] sample_purpose w)
                = Raises UnicodeEncodeError) by (vm_compute; reflexivity).
    assert (F : fs (snd (forge_and_run [55296] sample_purpose w))
                  !! (lit "script.py" :: proto_dir) = Some (File []))
      by (vm_compute; reflexivity).
    destruct (forge_and_run [55296] sample_purpose w) as [r w'].
    cbn [fst snd] in E, F. subst r. now exists w'.
Defined.

(** C7 on a sample run: [PATH] is passed on, the output directory added. *)
Lemma child_environment_witness :
  workspace_creatable
    (sample_world 2 0 [] [] (lit "plot.png") (Some sample_uv))
    sample_code sample_purpose = true /\
  exists call,
    spawned (snd (forge_and_run sample_code sample_purpose
                    (sample_world 2 0 [] [] (lit "plot.png") (Some sample_uv))))
    = [call] /\
    popen_env call !! lit "PATH" = Some (lit "/usr/bin") /\
    popen_env call !! PROTOTYPE_OUTPUT_DIR =
      Some (lit "/home/dev/.hidden_prototype/20250309_140507_plot_salesQ3/outputs").
Proof.
  set (w := sample_world 2 0 [] [] (lit "plot.png") (Some sample_uv)).
  assert (Hc : workspace_creatable w sample_code sample_purpose = true)
    by (vm_compute; reflexivity).
  destruct (child_environment w sample_code sample_purpose sample_uv
              Hc eq_refl ltac:(discriminate))
    as (call & Hlog & _ & Hout & _ & Hkeep & _).
  split; [exact Hc|]. exists call. split; [exact Hlog|]. split.
  - rewrite Hkeep by discriminate. vm_compute. reflexivity.
  - rewrite Hout. vm_compute. reflexivity.
Defined.

(** C7 as the specification words it fails: a gateway that inherited
    [PROTOTYPE_OUTPUT_DIR] passes it on with a new value, so an inherited
    variable is altered and no variable is added. *)
Lemma inherited_output_dir_is_overwritten :
  exists call,
    spawned (snd (forge_and_run sample_code sample_purpose
                    (nested_world 2 0 [] [] (lit "plot.png") (Some sample_uv))))
    = [call] /\
    environ (nested_world 2 0 [] [] (lit "plot.png") (Some sample_uv))
      !! PROTOTYPE_OUTPUT_DIR = Some (lit "/tmp/elsewhere") /\
    popen_env call !! PROTOTYPE_OUTPUT_DIR =
      Some (lit "/home/dev/.hidden_prototype/20250309_140507_plot_salesQ3/outputs") /\
    ~ env_extended_by_one
        (environ (nested_world 2 0 [] [] (lit "plot.png") (Some sample_uv)))
        (popen_env call).
Proof.
  set (w := nested_world 2 0 [] [] (lit "plot.png") (Some sample_uv)).
  assert (Hc : workspace_creatable w sample_code sample_purpose = true)
    by (vm_compute; reflexivity).
  assert (Hlog : spawned (snd (forge_and_run sample_code sample_purpose w))
                 = [gateway_call w sample_purpose sample_uv]).
  { rewrite (forge_and_run_found w sample_code sample_purpose sample_uv)
      by (assumption || reflexivity || discriminate).
    destruct (child_at w sample_code sample_purpose sample_uv) as [msg|ch];
      [reflexivity|].
    destruct (Qle_bool (run_time ch) 180); [|reflexivity].
    destruct (output ch); reflexivity. }
  assert (Hin : environ w !! PROTOTYPE_OUTPUT_DIR = Some (lit "/tmp/elsewhere"))
    by apply lookup_insert_eq.
  assert (Hout : popen_env (gateway_call w sample_purpose sample_uv)
                   !! PROTOTYPE_OUTPUT_DIR =
                 Some (lit "/home/dev/.hidden_prototype/20250309_140507_plot_salesQ3/outputs")).
  { cbn [popen_env gateway_call]. rewrite lookup_insert_eq.
    vm_compute. reflexivity. }
  exists (gateway_call w sample_purpose sample_uv).
  split; [exact Hlog|]. split; [exact Hin|]. split; [exact Hout|].
  intros [Hkeep _]. specialize (Hkeep _ _ Hin).
  rewrite Hout in Hkeep. vm_compute in Hkeep. discriminate.
Defined.


(* ===================================================================== *)
(** ** The further properties on sample data *)
(* ===================================================================== *)

(** X3 on a purpose of 36 letters and digits followed by a tail. *)
Lemma safe_purpose_ignores_tail_witness :
  (30 <= length (List.filter keeps (lit "abcdefghijklmnopqrstuvwxyz0123456789")))%nat /\
  safe_purpose (lit "abcdefghijklmnopqrstuvwxyz0123456789" ++ lit " second try")
  = safe_purpose (lit "abcdefghijklmnopqrstuvwxyz0123456789").
Proof.
  assert (Hl : (30 <= length (List.filter keeps
                   (lit "abcdefghijklmnopqrstuvwxyz0123456789")))%nat)
    by (vm_compute; lia).
  split; [exact Hl|].
  exact (proj1 (safe_purpose_ignores_tail _ (lit " second try") sample_clock Hl)).
Defined.

(** X5 on the sample clock. *)
Lemma strftime_round_trip_witness :
  valid_datetime sample_clock = true /\
  strftime sample_clock = lit "20250309_140507" /\
  year (read_timestamp (strftime sample_clock)) = 2025.
Proof.
  assert (Hv : valid_datetime sample_clock = true) by (vm_compute; reflexivity).
  split; [exact Hv|]. split; [vm_compute; reflexivity|].
  now rewrite (proj2 (strftime_round_trip sample_clock Hv)).
Defined.

(** X6 on the sample clock and one second later. *)
Lemma workspace_collision_iff_witness :
  valid_datetime sample_clock = true /\
  proto_dir_of sample_clock (lit "a/b") <>
  proto_dir_of
    {| year := 2025; month := 3; day := 9; hour := 14; minute := 5;
       second := 8; microsecond := 0 |} (lit "a/b").
Proof.
  set (later := {| year := 2025; month := 3; day := 9; hour := 14; minute := 5;
                   second := 8; microsecond := 0 |}).
  assert (Hv : valid_datetime sample_clock = true) by (vm_compute; reflexivity).
  assert (Hv2 : valid_datetime later = true) by (vm_compute; reflexivity).
  split; [exact Hv|].
  intros E.
  destruct (proj1 (workspace_collision_iff sample_clock later (lit "a/b")
                     (lit "a/b") Hv Hv2) E) as [Hsec _].
  destruct Hsec as (_ & _ & _ & _ & _ & Hs).
  vm_compute in Hs. discriminate.
Defined.

(** X7 on the sample call. *)
Lemma workspace_name_length_witness :
  valid_datetime sample_clock = true /\
  exists name,
    proto_dir_of sample_clock sample_purpose = name :: PROTO_ROOT /\
    (16 <= length name <= 46)%nat.
Proof.
  assert (Hv : valid_datetime sample_clock = true) by (vm_compute; reflexivity).
  split; [exact Hv|].
  destruct (workspace_name_length sample_clock sample_purpose Hv)
    as (name & Hn & _ & Hb).
  now exists name.
Defined.



(** X9 on a sample world with a file where the workspace should go. *)
Lemma file_in_the_way_witness :
  let w := sample_world 2 0 [] [] (lit "plot.png") (Some sample_uv) in
  forge_and_run sample_code sample_purpose
    (with_fs w (<[proto_dir_of sample_clock sample_purpose := File (lit "old")]> (fs w)))
  = (Raises FileExistsError,
     with_fs w (<[proto_dir_of sample_clock sample_purpose := File (lit "old")]> (fs w))).
Proof.
  intros w. apply (file_in_the_way _ _ _ (lit "old")).
  cbn [fs with_fs clock w sample_world]. apply lookup_insert_eq.
Defined.

(** X10 on a sample world where [script.py] is a directory. *)
Lemma script_path_is_directory_witness :
  let w := sample_world 2 0 [] [] (lit "plot.png") (Some sample_uv) in
  let f := <[lit "script.py" :: proto_dir_of sample_clock sample_purpose := Dir]>
             (<[proto_dir_of sample_clock sample_purpose := Dir]> (fs w)) in
  only_dirs f = true /\
  exists w', forge_and_run sample_code sample_purpose (with_fs w f)
             = (Raises IsADirectoryError, w').
Proof.
  intros w f.
  assert (Hd : only_dirs f = true) by (vm_compute; reflexivity).
  split; [exact Hd|].
  destruct (script_path_is_directory (with_fs w f) sample_code sample_purpose)
    as (w' & Hrun & _).
  - now apply only_dirs_clear.
  - apply lookup_insert_eq.
  - now exists w'.
Defined.





(** X15 on a sample run. *)
Lemma forge_and_run_answers_witness :
  workspace_creatable
    (sample_world 2 0 [] [] (lit "plot.png") (Some sample_uv))
    sample_code sample_purpose = true /\
  exists answer w',
    forge_and_run sample_code sample_purpose
      (sample_world 2 0 [] [] (lit "plot.png") (Some sample_uv))
    = (Returns answer, w').
Proof.
  assert (Hc : workspace_creatable
                 (sample_world 2 0 [] [] (lit "plot.png") (Some sample_uv))
                 sample_code sample_purpose = true) by (vm_compute; reflexivity).
  split; [exact Hc|].
  destruct (forge_and_run_answers _ sample_code sample_purpose Hc)
    as (answer & w' & Hrun & _).
  now exists answer, w'.
Defined.

(** X16 on a sample world whose runner cannot be started, and on one whose
    child writes bytes that are not valid text. *)
Lemma system_error_reported_witness :
  workspace_creatable (broken_runner_world (lit "Permission denied"))
    sample_code sample_purpose = true /\
  (exists w',
     forge_and_run sample_code sample_purpose
       (broken_runner_world (lit "Permission denied"))
     = (Returns (CROSS_MARK :: lit " System Error: Permission denied"), w')) /\
  workspace_creatable (world_with_child undecodable_child)
    sample_code sample_purpose = true /\
  (exists w',
     forge_and_run sample_code sample_purpose (world_with_child undecodable_child)
     = (Returns (CROSS_MARK :: lit " System Error: 'utf-8' codec can't decode byte 0xff in position 2: invalid start byte"), w') /\
     fs w' !! [lit "marker"; lit "tmp"] = Some (File (lit "ran"))).
Proof.
  assert (Hc : workspace_creatable (broken_runner_world (lit "Permission denied"))
                 sample_code sample_purpose = true) by (vm_compute; reflexivity).
  assert (Hc2 : workspace_creatable (world_with_child undecodable_child)
                  sample_code sample_purpose = true) by (vm_compute; reflexivity).
  assert (Hd : (2 <= 180)%Q) by (vm_compute; discriminate).
  split; [exact Hc|]. split.
  - destruct (proj1 (system_error_reported
                       (broken_runner_world (lit "Permission denied"))
                       sample_code sample_purpose sample_uv
                       (lit "Permission denied") Hc eq_refl ltac:(discriminate))
                eq_refl) as (w' & Hrun & _).
    now exists w'.
  - split; [exact Hc2|].
    destruct (proj2 (system_error_reported (world_with_child undecodable_child)
                       sample_code sample_purpose sample_uv
                       (lit "'utf-8' codec can't decode byte 0xff in position 2: invalid start byte")
                       Hc2 eq_refl ltac:(discriminate))
                (undecodable_child
                   (created_fs (world_with_child undecodable_child)
                      sample_code sample_purpose))
                eq_refl Hd Hd eq_refl) as (w' & Hrun & Hfs).
    exists w'. split; [exact Hrun|].
    rewrite Hfs. cbn [fs_after undecodable_child]. apply lookup_insert_eq.
Defined.


(** X18 on a file whose name holds a line break. *)
Lemma artifact_listing_is_one_line_witness :
  exists line,
    artifacts_section [[lit "two" ++ [NL] ++ lit "lines"; lit "outputs"]]
    = NL :: NL :: line /\ ~ In NL line.
Proof.
  exact (artifact_listing_is_one_line
           [[lit "two" ++ [NL] ++ lit "lines"; lit "outputs"]]
           ltac:(discriminate)).
Defined.


(** X20 on two results that differ in their output only. *)
Lemma status_line_tells_exit_code_witness :
  status_line {| returncode := 7; stdout := lit "a"; stderr := [] |}
  = status_line {| returncode := 7; stdout := lit "b"; stderr := [] |} /\
  returncode {| returncode := 7; stdout := lit "a"; stderr := [] |} = 7%Z.
Proof.
  split; [reflexivity|].
  now rewrite (status_line_tells_exit_code
                 {| returncode := 7; stdout := lit "a"; stderr := [] |}
                 {| returncode := 7; stdout := lit "b"; stderr := [] |} eq_refl).
Defined.
